(** * alertmanager-discord: the alert-group to chat-webhook relay

    A shallow embedding of [main.go] (the revision that batches embeds and
    formats the auxiliary metric) and the properties of its rendering,
    batching, delivery and ingress code.

    Conventions.
    - Go [string] and [[]byte] are Rocq [string] (a sequence of bytes).
    - Go [int] used as a length or an index is [nat]; colours and HTTP status
      codes are [Z].
    - [map[string]string] is [gmap string string]; the order in which
      [range] visits it is unspecified in Go and is an operation of the
      runtime below.
    - A Go [panic] is the outcome [Panic]; side effects (log lines, standard
      output, HTTP POSTs) are recorded as a chronological list of events.
    - Functions of the Go standard library whose text is not part of the
      repository are operations of the class [GoRuntime]. The general
      theorems hold for an arbitrary runtime; runs on sample inputs use the
      concrete runtime of the module [Fixture]. *)

From Stdlib Require Import ZArith String Ascii List Lia.
From Stdlib Require Import Floats.SpecFloat.
From stdpp Require Import base tactics option list gmap strings pretty.
From Equations Require Import Equations.
Import ListNotations.

Local Open Scope string_scope.
Local Open Scope Z_scope.
Local Open Scope list_scope.

(** ** Outcomes of Go code: normal return or panic *)

Inductive Result (A : Type) : Type :=
| Ok (a : A)
| Panic (msg : string).
Arguments Ok {A} a.
Arguments Panic {A} msg.

#[global] Instance Result_ret : MRet Result := fun _ a => Ok a.

#[global] Instance Result_bind : MBind Result := fun _ _ k r =>
  match r with
  | Ok a => k a
  | Panic msg => Panic msg
  end.

(** ** Package [strings] and string formatting *)

(** The one-byte string ["\n"]. *)
Definition nl : string := String "010"%char EmptyString.

Definition byte_lt (c : ascii) (n : N) : bool := (N_of_ascii c <? n)%N.

(** [strings.HasPrefix(s, prefix)]. *)
Definition strings_HasPrefix (s prefix : string) : bool := String.prefix prefix s.

(** [strings.Join(elems, sep)]. *)
Fixpoint strings_Join (elems : list string) (sep : string) : string :=
  match elems with
  | [] => ""
  | [e] => e
  | e :: rest => e +:+ sep +:+ strings_Join rest sep
  end.

(** [strings.Split(s, sep)] for a separator of one byte: the pieces between
    the occurrences of [sep], always at least one piece. *)
Fixpoint strings_Split (s : string) (sep : ascii) : list string :=
  match s with
  | EmptyString => [""]
  | String c rest =>
      if Ascii.eqb c sep then "" :: strings_Split rest sep
      else match strings_Split rest sep with
           | piece :: pieces => String c piece :: pieces
           | [] => [String c ""]
           end
  end.

(** The ASCII fast path of [strings.ToUpper]: every byte is below
    [utf8.RuneSelf] (0x80) and the letters a-z are shifted to A-Z. *)
Fixpoint isASCII (s : string) : bool :=
  match s with
  | EmptyString => true
  | String c rest => byte_lt c 128 && isASCII rest
  end.

Definition upperByte (c : ascii) : ascii :=
  let n := N_of_ascii c in
  if ((97 <=? n) && (n <=? 122))%N then ascii_of_N (n - 32) else c.

Fixpoint upperASCII (s : string) : string :=
  match s with
  | EmptyString => EmptyString
  | String c rest => String (upperByte c) (upperASCII rest)
  end.

(** [strings.Contains(s, "..")] as [time.containsDotDot] spells it out. *)
Fixpoint containsDotDot (s : string) : bool :=
  match s with
  | String "." (String "." _ as rest) => true
  | String _ rest => containsDotDot rest
  | EmptyString => false
  end.

(** A slice expression [b[:hi]] on a byte string: Go panics when [hi]
    exceeds the length. *)
Definition slice_to (b : string) (hi : nat) : Result string :=
  if (hi <=? String.length b)%nat then Ok (String.substring 0 hi b)
  else Panic "slice bounds out of range".

(** A slice expression [s[lo:hi]] on a slice; [s[lo:]] is [s[lo:len(s)]]. *)
Definition slice {A} (s : list A) (lo hi : nat) : Result (list A) :=
  if ((lo <=? hi) && (hi <=? length s))%nat then Ok (take (hi - lo) (drop lo s))
  else Panic "slice bounds out of range".

(** ** Data model (the struct declarations of [main.go]) *)

Definition MaxDiscordEmbed : nat := 10.
Definition ColorRed : Z := 0x992D22.
Definition ColorOrange : Z := 0xF0B816.
Definition ColorGreen : Z := 0x2ECC71.
Definition ColorGrey : Z := 0x95A5A6.
Definition ColorBlue : Z := 0x58b9ff.

(** [alertManAlert]; the nested [Annotations] struct is flattened. *)
Record alertManAlert : Type := {
  Annotations_Description : string;
  Annotations_Summary : string;
  EndsAt : string;
  GeneratorURL : string;
  Labels : gmap string string;
  StartsAt : string;
  Status : string
}.

(** [alertManOut]; its own [Status] field is [GroupStatus] here. *)
Record alertManOut : Type := {
  Alerts : list alertManAlert;
  CommonAnnotations_Summary : string;
  CommonLabels_Alertname : string;
  ExternalURL : string;
  GroupKey : string;
  GroupLabels_Alertname : string;
  Receiver : string;
  GroupStatus : string;
  Version : string
}.

Record discordEmbedField : Type := {
  Name : string;
  Value : string
}.

Record discordEmbed : Type := {
  Title : string;
  Description : string;
  Color : Z;
  Fields : list discordEmbedField
}.

Record discordOut : Type := {
  Content : string;
  Embeds : list discordEmbed
}.

(** ** Packages [time] and [strconv]: the data *)

(** [*time.Location]: the two predeclared locations and the zones of the
    time-zone database. *)
Inductive Location : Type :=
| UTC
| Local
| Zone (name : string).

(** [time.Time]: an instant (nanoseconds since the Unix epoch) shown in a
    location. *)
Record Time : Type := {
  instant : Z;
  location : Location
}.

(** [time.Time{}]: January 1, year 1, 00:00:00 UTC. *)
Definition zeroTime : Time := {| instant := -62135596800 * 1000000000; location := UTC |}.

Definition Second : Z := 1000000000.
Definition minInt64 : Z := - 2 ^ 63.
Definition maxInt64 : Z := 2 ^ 63 - 1.

(** Two's-complement wrap-around of an [int64] result. *)
Definition wrap64 (z : Z) : Z := (z + 2 ^ 63) mod 2 ^ 64 - 2 ^ 63.

(** [float64]: an IEEE 754 binary64 datum. *)
Definition float64 : Type := spec_float.
Definition f64_zero : float64 := S754_zero false.
Definition f64_inf (neg : bool) : float64 := S754_infinity neg.

(** The comparison [v == 1.0]. *)
Definition f64_is_one (v : float64) : bool :=
  match v with
  | S754_finite false m e => (e <=? 0)%Z && (Z.pos m =? 2 ^ (- e))%Z
  | _ => false
  end.

(** What [strconv.ParseFloat(s, 64)] finds in [s]. *)
Inductive FloatParse : Type :=
| FloatOk (f : float64)
| FloatSyntax
| FloatRange (neg : bool).

(** The pair [(f, err)] that [strconv.ParseFloat] returns: the parsed value
    and no error; [0] and [ErrSyntax]; or ±Inf and [ErrRange] for a
    well-formed number beyond the largest [float64]. *)
Definition ParseFloat_returns (p : FloatParse) : float64 * option string :=
  match p with
  | FloatOk f => (f, None)
  | FloatSyntax => (f64_zero, Some "invalid syntax")
  | FloatRange neg => (f64_inf neg, Some "value out of range")
  end.

(** ** The Go runtime: library operations the program calls

    [isRawPromAlert] is a function of this repository that lives outside
    [main.go]; it is an operation of the runtime as well. *)
Class GoRuntime : Type := {
  (** [strings.Map(unicode.ToUpper, s)], the slow path of [strings.ToUpper] *)
  unicode_ToUpper : string -> string;
  (** the sequence of entries a [range] over the map yields *)
  mapRange : gmap string string -> list (string * string);
  (** [strconv.ParseFloat(s, 64)] *)
  scanFloat64 : string -> FloatParse;
  (** the conversion [int64(v)] *)
  int64_of_float64 : float64 -> Z;
  (** [fmt.Sprintf("%.2f", v)] *)
  Sprintf_2f : float64 -> string;
  (** [time.Parse(time.RFC3339, s)]: the time, or [None] for an error *)
  scanRFC3339 : string -> option Time;
  (** the zones the installed time-zone database has *)
  zoneinfo : string -> bool;
  (** [t.Format(time.DateTime)] *)
  Time_Format_DateTime : Time -> string;
  (** [d.String()] for a [time.Duration] of [d] nanoseconds *)
  Duration_String : Z -> string;
  (** [json.Marshal] of a [discordOut] *)
  json_Marshal : discordOut -> string;
  (** [json.Unmarshal] into an [alertManOut]: the value, or [None] for an error *)
  json_Unmarshal : string -> option alertManOut;
  (** the foreign-shape check of the repository *)
  isRawPromAlert : string -> bool
}.

(** What the language guarantees about [range] over a map: every entry is
    visited exactly once, in some order. *)
Class GoRuntimeLaws (R : GoRuntime) : Prop := {
  mapRange_perm : forall m : gmap string string, mapRange m ≡ₚ map_to_list m
}.

(** ** The process: flags, environment, and the world outside *)

(** The package-level flags [whURL] and [debug] and the environment. *)
Record Process : Type := {
  whURL : string;
  debug : bool;
  environ : gmap string string
}.

(** The result of [http.Post]: an error, or a response with its status
    code and body. *)
Inductive PostResult : Type :=
| TransportError (err : string)
| Response (StatusCode : Z) (ResponseBody : string).

(** Observable effects, oldest first. *)
Inductive Event : Type :=
| EvLog (line : string)
| EvStdout (line : string)
| EvPost (url contentType body : string).

(** The world: what has happened so far and how the network will answer
    the POSTs still to come. *)
Record World : Type := {
  events : list Event;
  network : nat -> PostResult
}.

(** Effectful Go code: a state transformer over the world that returns or
    panics. *)
Definition M (A : Type) : Type := World -> Result A * World.

#[global] Instance M_ret : MRet M := fun _ a w => (Ok a, w).

#[global] Instance M_bind : MBind M := fun _ _ k m w =>
  match m w with
  | (Ok a, w') => k a w'
  | (Panic msg, w') => (Panic msg, w')
  end.

Definition lift {A} (r : Result A) : M A := fun w => (r, w).

Definition emit (e : Event) : M unit := fun w =>
  (Ok tt, {| events := events w ++ [e]; network := network w |}).

(** [log.Print], [log.Printf], [log.Println] with the formatted line. *)
Definition log_Print (line : string) : M unit := emit (EvLog line).

(** [fmt.Println] with the formatted line. *)
Definition fmt_Println (line : string) : M unit := emit (EvStdout line).

(** [http.Post(url, contentType, body)]: the request goes out and the
    network answers. *)
Definition http_Post (url contentType body : string) : M PostResult := fun w =>
  (Ok (network w 0%nat),
   {| events := events w ++ [EvPost url contentType body];
      network := fun n => network w (S n) |}).

(** The bodies POSTed in a list of events. *)
Definition posted (evs : list Event) : list string :=
  omap (fun e => match e with EvPost _ _ body => Some body | _ => None end) evs.

(** The lines logged in a list of events. *)
Definition logged (evs : list Event) : list string :=
  omap (fun e => match e with EvLog line => Some line | _ => None end) evs.

(** ** The program *)

Section Program.
Context {R : GoRuntime} (P : Process).

(** *** Library functions with a fixed, documented behaviour *)

(** [os.Getenv(key)]: the empty string when the variable is unset. *)
Definition os_Getenv (key : string) : string := default "" (environ P !! key).

(** [strings.ToUpper(s)]. *)
Definition strings_ToUpper (s : string) : string :=
  if isASCII s then upperASCII s else unicode_ToUpper s.

(** [strconv.ParseFloat(s, 64)]. *)
Definition strconv_ParseFloat (s : string) : float64 * option string :=
  ParseFloat_returns (scanFloat64 s).

(** [time.Parse(time.RFC3339, value)]: the zero [Time] comes with every
    error. *)
Definition time_Parse_RFC3339 (value : string) : Time * option string :=
  match scanRFC3339 value with
  | Some t => (t, None)
  | None => (zeroTime, Some "parsing time: cannot parse as RFC3339")
  end.

(** [time.LoadLocation(name)]; a nil [*Location] is [None]. *)
Definition time_LoadLocation (name : string) : option Location * option string :=
  if String.eqb name "" || String.eqb name "UTC" then (Some UTC, None)
  else if String.eqb name "Local" then (Some Local, None)
  else if containsDotDot name || String.prefix "/" name || String.prefix "\" name
       then (None, Some "time: invalid location name")
  else if zoneinfo name then (Some (Zone name), None)
  else (None, Some ("unknown time zone " +:+ name)).

(** [t.In(loc)]: panics on a nil location. *)
Definition Time_In (t : Time) (loc : option Location) : Result Time :=
  match loc with
  | Some l => Ok {| instant := instant t; location := l |}
  | None => Panic "time: missing Location in call to Time.In"
  end.

(** [t.After(u)]. *)
Definition Time_After (t u : Time) : bool := (instant u <? instant t)%Z.

(** [t.Sub(u)]: the difference in nanoseconds, saturated to the range of a
    [Duration]. *)
Definition Time_Sub (t u : Time) : Z :=
  let d := (instant t - instant u)%Z in
  if (d <? minInt64)%Z then minInt64
  else if (maxInt64 <? d)%Z then maxInt64
  else d.

(** [time.Unix(sec, 0)]: a local time; the seconds are kept as an [int64]
    count from year 1. *)
Definition time_Unix (sec : Z) : Time :=
  {| instant := (wrap64 (sec + 62135596800) - 62135596800) * Second;
     location := Local |}.

(** *** [valueConv] *)

Definition valueConv (v : float64) (conv : string) : string :=
  if String.eqb conv "duration" then
    (* input is second *)
    let d := wrap64 (int64_of_float64 v * Second) in
    Duration_String d
  else if String.eqb conv "timestamp" then
    let t := time_Unix (int64_of_float64 v) in
    Time_Format_DateTime t
  else if String.eqb conv "updown" then
    if f64_is_one v then "up" else "down"
  else Sprintf_2f v.

(** *** [getSeverityColor] *)

Definition getSeverityColor (severity : string) : Z :=
  if String.eqb severity "debug" then ColorGrey
  else if String.eqb severity "info" then ColorBlue
  else if String.eqb severity "warning" then ColorOrange
  else if String.eqb severity "critical" then ColorRed
  else ColorRed.

(** *** [sendWebhook]: rendering one alert

    The body of the [for _, alert := range amo.Alerts] loop, in the order
    of the source: the status switch, the timestamps, the title, the
    labels, the description and the assembled text. *)

(** The [switch alert.Status]: the display status and [embed.Color]. *)
Definition alertStatus (alert : alertManAlert) : string * Z :=
  let status := Status alert in
  let color := ColorGrey in
  if String.eqb (Status alert) "firing" then
    let status :=
      match Labels alert !! "severity" with
      | Some s => s
      | None => status
      end in
    (status, getSeverityColor status)
  else if String.eqb (Status alert) "resolved" then
    ("normal", ColorGreen)
  else (status, color).

(** [loc], [startAt] and [endAt]; the errors of [LoadLocation] and [Parse]
    are dropped. *)
Definition alertTimes (alert : alertManAlert) : Result (Time * Time) :=
  let loc := fst (time_LoadLocation (os_Getenv "TZ")) in
  let startAt := fst (time_Parse_RFC3339 (StartsAt alert)) in
  startAt ← Time_In startAt loc;
  let endAt := fst (time_Parse_RFC3339 (EndsAt alert)) in
  endAt ← Time_In endAt loc;
  Ok (startAt, endAt).

(** One turn of [for k, v := range alert.Labels] on the variables
    [labels], [metricsValue] and [metricsConv]. *)
Definition labelStep (vars : list string * float64 * string) (kv : string * string)
  : list string * float64 * string :=
  let '(labels, metricsValue, metricsConv) := vars in
  let '(k, v) := kv in
  if strings_HasPrefix k "metrics_" then
    (* ignore metrics *)
    if String.eqb k "metrics_value" then (labels, fst (strconv_ParseFloat v), metricsConv)
    else if String.eqb k "metrics_conv" then (labels, metricsValue, v)
    else vars
  else if String.eqb k "value" then vars  (* Ignore some key *)
  else (labels ++ [": - **_" +:+ k +:+ ":_** " +:+ v], metricsValue, metricsConv).

(** The label loop and the value line that follows it. *)
Definition alertLabels (status : string) (alert : alertManAlert) : list string :=
  let '(labels, metricsValue, metricsConv) :=
    fold_left labelStep (mapRange (Labels alert)) ([], f64_zero, "") in
  if negb (String.eqb status "normal") then
    labels ++ [": - **_value:_** " +:+ valueConv metricsValue metricsConv]
  else labels.

(** The description, split into lines and bulleted. *)
Definition alertDescription (alert : alertManAlert) : list string :=
  let description := strings_Split (Annotations_Description alert) "010"%char in
  (fun v => ": - " +:+ v) <$> description.

(** [embedDescribe], joined into [embed.Description]. *)
Definition alertBody (startAt endAt : Time) (labels description : list string) : string :=
  let embedDescribe := [] in
  let eventTime := if Time_After endAt startAt then endAt else startAt in
  let embedDescribe := embedDescribe ++ ["**⏰ Event Time:** " +:+ Time_Format_DateTime eventTime] in
  let embedDescribe := embedDescribe ++ ["**🏷️ Alert labels:**" +:+ nl +:+ strings_Join labels nl] in
  (* Abnormal state *)
  let embedDescribe := embedDescribe ++ ["------"] in
  let embedDescribe := embedDescribe ++ ["**📖 Description:**" +:+ nl +:+ strings_Join description nl] in
  let embedDescribe :=
    if Time_After endAt startAt then
      let embedDescribe := embedDescribe ++ ["------"] in
      let embedDescribe := embedDescribe ++ ["**⏲️ Duration:** " +:+ Duration_String (Time_Sub endAt startAt)] in
      let embedDescribe := embedDescribe ++ [": - **_Start:_** " +:+ Time_Format_DateTime startAt] in
      embedDescribe ++ [": - **_End:_** " +:+ Time_Format_DateTime endAt]
    else embedDescribe in
  strings_Join embedDescribe nl.

Definition renderAlert (alert : alertManAlert) : Result discordEmbed :=
  let '(status, color) := alertStatus alert in
  '(startAt, endAt) ← alertTimes alert;
  let title := "[" +:+ strings_ToUpper status +:+ "] " +:+ Annotations_Summary alert in
  let labels := alertLabels status alert in
  let description := alertDescription alert in
  Ok {| Title := title;
        Description := alertBody startAt endAt labels description;
        Color := color;
        Fields := [] |}.

(** The loop over [amo.Alerts], appending to [embeds]. *)
Fixpoint renderAlerts (alerts : list alertManAlert) (embeds : list discordEmbed)
  : Result (list discordEmbed) :=
  match alerts with
  | [] => Ok embeds
  | alert :: rest =>
      embed ← renderAlert alert;
      renderAlerts rest (embeds ++ [embed])
  end.

(** *** [fireMessageOut] *)

Definition fireMessageOut (msg : discordOut) : M unit :=
  let DOD := json_Marshal msg in
  (if debug P then fmt_Println ("Send webhook: " +:+ DOD) else mret tt);;
  r ← http_Post (whURL P) "application/json" DOD;
  match r with
  | TransportError err => log_Print ("Send discord error -: " +:+ err)
  | Response StatusCode b =>
      if (400 <=? StatusCode)%Z then
        log_Print ("Discord server return error -: " +:+ pretty StatusCode +:+ " " +:+ b)
      else mret tt
  end.

(** *** [sendWebhook]: batching and delivery *)

(** The bulk-send loop [for i := 0; i < len(embeds); i += MaxDiscordEmbed],
    entered at index [i]. *)
Equations? bulkSend (DO : discordOut) (embeds : list discordEmbed) (i : nat)
  : M unit by wf (length embeds - i)%nat lt :=
bulkSend DO embeds i with lt_dec i (length embeds) := {
  | left _ =>
      chunk ← lift (if (i + MaxDiscordEmbed <=? length embeds)%nat
                    then slice embeds i (i + MaxDiscordEmbed)
                    else slice embeds i (length embeds));
      fireMessageOut {| Content := Content DO; Embeds := chunk |};;
      bulkSend DO embeds (i + MaxDiscordEmbed)%nat
  | right _ => mret tt }.
Proof. unfold MaxDiscordEmbed. lia. Qed.

Definition sendWebhook (amo : alertManOut) : M unit :=
  let DO := {| Content := "=== Alert: " +:+ Receiver amo +:+ " - " +:+ GroupLabels_Alertname amo +:+ " ===";
               Embeds := [] |} in
  embeds ← lift (renderAlerts (Alerts amo) []);
  if (MaxDiscordEmbed <? length embeds)%nat then
    (* Set bulk send *)
    bulkSend DO embeds 0
  else
    fireMessageOut {| Content := Content DO; Embeds := embeds |}.

(** *** [sendRawPromAlertWarn] *)

Definition badString : string :=
  "This program is suppose to be fed by alertmanager." +:+ nl +:+
  "It is not a replacement for alertmanager, it is a " +:+ nl +:+
  "webhook target for it. Please read the README.md  " +:+ nl +:+
  "for guidance on how to configure it for alertmanager" +:+ nl +:+
  "or https://prometheus.io/docs/alerting/latest/configuration/#webhook_config".

Definition sendRawPromAlertWarn : M unit :=
  log_Print "/!\ -- You have misconfigured this software -- /!\";;
  log_Print "--- --                                      -- ---";;
  log_Print badString;;
  let DO := {| Content := "";
               Embeds := [ {| Title := "You have misconfigured this software";
                              Description := badString;
                              Color := ColorGrey;
                              Fields := [] |} ] |} in
  let DOD := json_Marshal DO in
  _ ← http_Post (whURL P) "application/json" DOD;
  mret tt.

(** *** The request handler of [main] *)

(** The result of [ioutil.ReadAll(r.Body)]. *)
Inductive ReadResult : Type :=
| ReadOk (b : string)
| ReadError (err : string).

Record Request : Type := {
  Host : string;
  Method : string;
  URL : string;
  Body : ReadResult
}.

Definition handler (r : Request) : M unit :=
  log_Print (Host r +:+ " - [" +:+ Method r +:+ "] " +:+ URL r);;
  b ← match Body r with
      | ReadOk b => mret b
      | ReadError err => lift (Panic err)
      end;
  (if debug P then fmt_Println ("Receive webhook: " +:+ b) else mret tt);;
  match json_Unmarshal b with
  | None =>
      if isRawPromAlert b then sendRawPromAlertWarn
      else if (1024 <? String.length b)%nat then
        head ← lift (slice_to b 1023);
        log_Print ("Failed to unpack inbound alert request - " +:+ head +:+ "...")
      else
        log_Print ("Failed to unpack inbound alert request - " +:+ b)
  | Some amo => sendWebhook amo
  end.

(** What the caller of the endpoint gets. The handler never touches the
    [http.ResponseWriter]: when it returns, [net/http] answers with status
    200 and an empty body; when it panics, [net/http] recovers, writes the
    panic to the server's error log (not recorded here) and closes the
    connection without a response. *)
Inductive Reply : Type :=
| Replied (status : Z) (body : string)
| Aborted.

Definition serveHTTP (r : Request) (w : World) : Reply * World :=
  match handler r w with
  | (Ok _, w') => (Replied 200 "", w')
  | (Panic _, w') => (Aborted, w')
  end.

End Program.

(** ** A concrete runtime for running the model

    [Fixture.runtime] implements every operation of [GoRuntime] on a
    fragment of its domain, as the Go library behaves there: floats written
    as digits with an optional exponent, UTC timestamps
    ["YYYY-MM-DDTHH:MM:SSZ"], a time-zone database with the single zone
    Asia/Bangkok (also the local zone), and a JSON decoder given by the
    table of the request bodies at hand. *)

Module Fixture.

Definition digit (c : ascii) : option Z :=
  let n := N_of_ascii c in
  if ((48 <=? n) && (n <=? 57))%N then Some (Z.of_N n - 48) else None.

(** The value of a string of decimal digits, continuing from [acc]. *)
Fixpoint digits (s : string) (acc : Z) : option Z :=
  match s with
  | EmptyString => Some acc
  | String c rest => d ← digit c; digits rest (10 * acc + d)
  end.

Definition number (s : string) : option Z :=
  match s with
  | EmptyString => None
  | _ => digits s 0
  end.

(** Mantissa and exponent of ["123"] or ["123e45"]. *)
Definition decimal (s : string) : option (Z * Z) :=
  match strings_Split s "e"%char with
  | [m] => m ← number m; Some (m, 0)
  | [m; e] => m ← number m; e ← number e; Some (m, e)
  | _ => None
  end.

Definition parse_float (s : string) : FloatParse :=
  match decimal s with
  | None => FloatSyntax
  | Some (m, e) =>
      if (m =? 0)%Z then FloatOk (S754_zero false)
      else if (400 <? e)%Z then FloatRange false
      else match binary_normalize 53 1024 (m * 10 ^ e) 0 false with
           | S754_infinity neg => FloatRange neg
           | f => FloatOk f
           end
  end.

(** The integer part of a finite float; the conversion of anything outside
    [int64] gives the smallest [int64], as on amd64. *)
Definition to_int64 (v : float64) : Z :=
  match v with
  | S754_zero _ => 0
  | S754_finite neg m e =>
      let z := if (0 <=? e)%Z then Z.pos m * 2 ^ e else Z.pos m / 2 ^ (- e) in
      let z := if neg then - z else z in
      if (minInt64 <=? z)%Z && (z <=? maxInt64)%Z then z else minInt64
  | _ => minInt64
  end.

Definition pad (width : nat) (n : Z) : string :=
  let s := pretty n in
  String.concat "" (replicate (width - String.length s) "0") +:+ s.

(** Two decimals, the exact value rounded half to even. *)
Definition format_2f (v : float64) : string :=
  match v with
  | S754_zero neg => if neg then "-0.00" else "0.00"
  | S754_infinity neg => if neg then "-Inf" else "+Inf"
  | S754_nan => "NaN"
  | S754_finite neg m e =>
      let num := if (0 <=? e)%Z then 100 * Z.pos m * 2 ^ e else 100 * Z.pos m in
      let den := if (0 <=? e)%Z then 1 else 2 ^ (- e) in
      let q := num / den in
      let r := num mod den in
      let q := if (den <? 2 * r)%Z || ((den =? 2 * r)%Z && Z.odd q) then q + 1 else q in
      (if neg then "-" else "") +:+ pretty (q / 100) +:+ "." +:+ pad 2 (q mod 100)
  end.

(** Days since 1970-01-01 of a date of the proleptic Gregorian calendar,
    and back. *)
Definition days_from_civil (y m d : Z) : Z :=
  let y := if (m <=? 2)%Z then y - 1 else y in
  let era := y / 400 in
  let yoe := y - era * 400 in
  let doy := (153 * (if (2 <? m)%Z then m - 3 else m + 9) + 2) / 5 + d - 1 in
  let doe := yoe * 365 + yoe / 4 - yoe / 100 + doy in
  era * 146097 + doe - 719468.

Definition civil_from_days (days : Z) : Z * Z * Z :=
  let z := days + 719468 in
  let era := z / 146097 in
  let doe := z - era * 146097 in
  let yoe := (doe - doe / 1460 + doe / 36524 - doe / 146096) / 365 in
  let doy := doe - (365 * yoe + yoe / 4 - yoe / 100) in
  let mp := (5 * doy + 2) / 153 in
  let d := doy - (153 * mp + 2) / 5 + 1 in
  let m := if (mp <? 10)%Z then mp + 3 else mp - 9 in
  (if (m <=? 2)%Z then yoe + era * 400 + 1 else yoe + era * 400, m, d).

Definition field (s : string) (pos len : nat) : option Z :=
  number (String.substring pos len s).

Definition parse_rfc3339 (s : string) : option Time :=
  if negb (String.length s =? 20)%nat then None
  else if negb (String.eqb (String.substring 4 1 s +:+ String.substring 7 1 s +:+
                            String.substring 10 1 s +:+ String.substring 13 1 s +:+
                            String.substring 16 1 s +:+ String.substring 19 1 s) "--T::Z")
  then None
  else
    y ← field s 0 4; m ← field s 5 2; d ← field s 8 2;
    hh ← field s 11 2; mm ← field s 14 2; ss ← field s 17 2;
    if (1 <=? m)%Z && (m <=? 12)%Z && (1 <=? d)%Z && (hh <? 24)%Z && (mm <? 60)%Z && (ss <? 60)%Z
       && (snd (civil_from_days (days_from_civil y m d)) =? d)%Z
    then Some {| instant := (days_from_civil y m d * 86400 + hh * 3600 + mm * 60 + ss) * Second;
                 location := UTC |}
    else None.

Definition has_zone (name : string) : bool := String.eqb name "Asia/Bangkok".

(** Seconds east of UTC: Asia/Bangkok has been at +07:00 without daylight
    saving since 1920. *)
Definition offset (loc : Location) : Z :=
  match loc with
  | UTC => 0
  | Local => 7 * 3600
  | Zone name => if String.eqb name "Asia/Bangkok" then 7 * 3600 else 0
  end.

Definition format_datetime (t : Time) : string :=
  let secs := instant t / Second + offset (location t) in
  let '(y, m, d) := civil_from_days (secs / 86400) in
  let rem := secs mod 86400 in
  pad 4 y +:+ "-" +:+ pad 2 m +:+ "-" +:+ pad 2 d +:+ " " +:+
  pad 2 (rem / 3600) +:+ ":" +:+ pad 2 (rem mod 3600 / 60) +:+ ":" +:+ pad 2 (rem mod 60).

(** The fraction [v mod 10^prec] without its trailing zeros, with the
    decimal point unless it is zero. *)
Fixpoint fmtFrac (prec : nat) (v : Z) (out : string) : string :=
  match prec with
  | O => match out with EmptyString => "" | _ => "." +:+ out end
  | S prec' =>
      let digit := v mod 10 in
      fmtFrac prec' (v / 10)
        (match out with
         | EmptyString => if (digit =? 0)%Z then "" else pretty digit
         | _ => pretty digit +:+ out
         end)
  end.

Definition duration_string (d : Z) : string :=
  let u := Z.abs d in
  (if (d <? 0)%Z then "-" else "") +:+
  (if (u =? 0)%Z then "0s"
   else if (u <? 1000)%Z then pretty u +:+ "ns"
   else if (u <? 1000000)%Z then pretty (u / 1000) +:+ fmtFrac 3 u "" +:+ "µs"
   else if (u <? Second)%Z then pretty (u / 1000000) +:+ fmtFrac 6 u "" +:+ "ms"
   else
     let s := u / Second in
     let m := s / 60 in
     let h := m / 60 in
     (if (0 <? h)%Z then pretty h +:+ "h" else "") +:+
     (if (0 <? m)%Z then pretty (m mod 60) +:+ "m" else "") +:+
     pretty (s mod 60) +:+ fmtFrac 9 u "" +:+ "s").

(** A JSON string literal; the bytes escaped are the quote, the backslash
    and the newline. *)
Fixpoint escape (s : string) : string :=
  match s with
  | EmptyString => ""
  | String c rest =>
      (if Ascii.eqb c "034"%char then "\" +:+ String c ""
       else if Ascii.eqb c "\"%char then "\\"
       else if Ascii.eqb c "010"%char then "\n"
       else String c "") +:+ escape rest
  end.

Definition quote (s : string) : string :=
  String "034"%char (escape s) +:+ String "034"%char "".

Definition key (k : string) : string := quote k +:+ ":".

Definition marshalEmbed (e : discordEmbed) : string :=
  "{" +:+ key "title" +:+ quote (Title e) +:+ "," +:+
  key "description" +:+ quote (Description e) +:+ "," +:+
  key "color" +:+ pretty (Color e) +:+ "," +:+
  key "fields" +:+ "[]}".

(** A nil slice is encoded as [null]; [sendWebhook] passes a nil [Embeds]
    exactly when there is no embed. *)
Definition marshal (msg : discordOut) : string :=
  "{" +:+ key "content" +:+ quote (Content msg) +:+ "," +:+ key "embeds" +:+
  match Embeds msg with
  | [] => "null"
  | embeds => "[" +:+ String.concat "," (marshalEmbed <$> embeds) +:+ "]"
  end +:+ "}".

(** The runtime, for a table [inbox] of request bodies with the alert
    groups they decode to and a list [foreign] of bodies that have the
    foreign shape. *)
Definition runtime (inbox : list (string * alertManOut)) (foreign : list string) : GoRuntime :=
  {| unicode_ToUpper := fun s => s;
     mapRange := map_to_list;
     scanFloat64 := parse_float;
     int64_of_float64 := to_int64;
     Sprintf_2f := format_2f;
     scanRFC3339 := parse_rfc3339;
     zoneinfo := has_zone;
     Time_Format_DateTime := format_datetime;
     Duration_String := duration_string;
     json_Marshal := marshal;
     json_Unmarshal := fun b => snd <$> List.find (fun entry => String.eqb (fst entry) b) inbox;
     isRawPromAlert := fun b => bool_decide (b ∈ foreign) |}.

End Fixture.

(** ** Vocabulary of the specification *)

Section Vocabulary.
Context {R : GoRuntime} (P : Process).

(** The header line of the messages of an alert group. *)
Definition header (amo : alertManOut) : string :=
  "=== Alert: " +:+ Receiver amo +:+ " - " +:+ GroupLabels_Alertname amo +:+ " ===".

(** The specification's partition: [count] contiguous runs of at most
    [MaxDiscordEmbed] units, the first one starting at index [i]. *)
Fixpoint runs (count i : nat) (units : list discordEmbed) : list (list discordEmbed) :=
  match count with
  | O => []
  | S count' => take MaxDiscordEmbed (drop i units) :: runs count' (i + MaxDiscordEmbed) units
  end.

(** The number of messages the specification asks for: [ceil(K / 10)], and
    one message for no unit at all. *)
Definition batchCount (K : nat) : nat :=
  if (K =? 0)%nat then 1%nat else ((K + (MaxDiscordEmbed - 1)) / MaxDiscordEmbed)%nat.

(** The specification's outbound messages for the rendered units. *)
Definition batches (content : string) (units : list discordEmbed) : list discordOut :=
  (fun run => {| Content := content; Embeds := run |}) <$> runs (batchCount (length units)) 0 units.

(** What one delivery leaves in the world when the network answers [r]:
    the optional debug echo, one POST, and the log line of a failure. *)
Definition deliveryEvents (msg : discordOut) (r : PostResult) : list Event :=
  (if debug P then [EvStdout ("Send webhook: " +:+ json_Marshal msg)] else []) ++
  [EvPost (whURL P) "application/json" (json_Marshal msg)] ++
  match r with
  | TransportError err => [EvLog ("Send discord error -: " +:+ err)]
  | Response StatusCode b =>
      if (400 <=? StatusCode)%Z
      then [EvLog ("Discord server return error -: " +:+ pretty StatusCode +:+ " " +:+ b)]
      else []
  end.

(** The world after the messages were handed to the Delivery Client one
    after the other. *)
Fixpoint delivered (msgs : list discordOut) (w : World) : World :=
  match msgs with
  | [] => w
  | msg :: rest =>
      delivered rest {| events := events w ++ deliveryEvents msg (network w 0%nat);
                        network := fun n => network w (S n) |}
  end.

(** A label that is rendered as an ordinary line. *)
Definition ordinaryLabel (kv : string * string) : bool :=
  negb (String.prefix "metrics_" (fst kv)) && negb (String.eqb (fst kv) "value").

(** The bulleted line of a label, and the one of the auxiliary metric. *)
Definition labelLine (kv : string * string) : string :=
  ": - **_" +:+ fst kv +:+ ":_** " +:+ snd kv.

Definition valueLine (v : float64) (conv : string) : string :=
  ": - **_value:_** " +:+ valueConv v conv.

(** The auxiliary metric of a label map: the value the float parser
    returns for ["metrics_value"] and the tag under ["metrics_conv"], with
    [0.0] and the empty tag for absent labels. *)
Definition metricOf (labels : gmap string string) : float64 * string :=
  (match labels !! "metrics_value" with
   | Some v => fst (strconv_ParseFloat v)
   | None => f64_zero
   end,
   default "" (labels !! "metrics_conv")).

(** A timestamp string as the renderer reads it: the parsed time, or the
    zero time for a string that does not parse, shown in [loc]. *)
Definition timestampIn (loc : Location) (value : string) : Time :=
  {| instant := instant (default zeroTime (scanRFC3339 value)); location := loc |}.

(** What the handler has done by the time it decodes the body [b]. *)
Definition received (r : Request) (b : string) (w : World) : World :=
  {| events := events w ++
               [EvLog (Host r +:+ " - [" +:+ Method r +:+ "] " +:+ URL r)] ++
               (if debug P then [EvStdout ("Receive webhook: " +:+ b)] else []);
     network := network w |}.

End Vocabulary.

(** ** Start-up: [checkWhURL] and [main] *)

(** The width in bytes of the first rune of a non-empty string, as
    [utf8.DecodeRune] finds it: an ASCII byte and every invalid encoding are
    one byte wide. *)
Definition runeWidth (s : string) : nat :=
  let byte (i : nat) : N :=
    match String.get i s with
    | Some c => N_of_ascii c
    | None => 0%N
    end in
  let within (lo hi x : N) : bool := ((lo <=? x) && (x <=? hi))%N in
  let b0 := byte 0%nat in
  let size : nat :=
    if within 0xC2%N 0xDF%N b0 then 2%nat
    else if within 0xE0%N 0xEF%N b0 then 3%nat
    else if within 0xF0%N 0xF4%N b0 then 4%nat
    else 1%nat in
  let lo : N :=
    if (b0 =? 0xE0)%N then 0xA0%N else if (b0 =? 0xF0)%N then 0x90%N else 0x80%N in
  let hi : N :=
    if (b0 =? 0xED)%N then 0x9F%N else if (b0 =? 0xF4)%N then 0x8F%N else 0xBF%N in
  if (size =? 1)%nat then 1%nat
  else if (String.length s <? size)%nat then 1%nat
  else if negb (within lo hi (byte 1%nat)) then 1%nat
  else if (size =? 2)%nat then 2%nat
  else if negb (within 0x80%N 0xBF%N (byte 2%nat)) then 1%nat
  else if (size =? 3)%nat then 3%nat
  else if negb (within 0x80%N 0xBF%N (byte 3%nat)) then 1%nat
  else 4%nat.

(** The string without its first [n] bytes. *)
Fixpoint dropBytes (n : nat) (s : string) : string :=
  match n, s with
  | O, _ => s
  | S n', String _ rest => dropBytes n' rest
  | S _, EmptyString => EmptyString
  end.

(** The rest of [s] after the literal [p], when [s] starts with it. *)
Fixpoint strip (p s : string) : option string :=
  match p, s with
  | EmptyString, _ => Some s
  | String a p', String b s' => if Ascii.eqb a b then strip p' s' else None
  | String _ _, EmptyString => None
  end.

(** The regular expression [.]: one rune that is not a newline. *)
Definition anyRune (s : string) : option string :=
  match s with
  | EmptyString => None
  | String c _ => if Ascii.eqb c "010"%char then None else Some (dropBytes (runeWidth s) s)
  end.

(** The classes [[0-9]] and [[a-zA-Z0-9_-]]. *)
Definition isDigit (c : ascii) : bool :=
  let n := N_of_ascii c in ((48 <=? n) && (n <=? 57))%N.

Definition isTokenByte (c : ascii) : bool :=
  let n := N_of_ascii c in
  ((97 <=? n) && (n <=? 122) || (65 <=? n) && (n <=? 90) || (48 <=? n) && (n <=? 57)
   || (n =? 95) || (n =? 45))%N.

(** The number of digits [s] starts with. *)
Fixpoint leadingDigits (s : string) : nat :=
  match s with
  | String c rest => if isDigit c then S (leadingDigits rest) else O
  | EmptyString => O
  end.

(** [[0-9]{18,19}/[a-zA-Z0-9_-]+] at the start of [s]. *)
Definition matchIdToken (s : string) : bool :=
  let d := leadingDigits s in
  ((d =? 18) || (d =? 19))%nat &&
  match dropBytes d s with
  | String "/" (String c _) => isTokenByte c
  | _ => false
  end.

(** [.com/api/webhooks/[0-9]{18,19}/[a-zA-Z0-9_-]+] at the start of [s]. *)
Definition matchHost (s : string) : bool :=
  match anyRune s with
  | Some rest =>
      match strip "com/api/webhooks/" rest with
      | Some rest' => matchIdToken rest'
      | None => false
      end
  | None => false
  end.

(** The whole expression at the start of [s], with and without [app]. *)
Definition matchHere (s : string) : bool :=
  match strip "https://discord" s with
  | Some rest =>
      matchHost rest ||
      match strip "app" rest with
      | Some rest' => matchHost rest'
      | None => false
      end
  | None => false
  end.

(** [re.Match([]byte(whURL))] for the expression
    [https://discord(?:app)?.com/api/webhooks/[0-9]{18,19}/[a-zA-Z0-9_-]+] of
    [checkWhURL]: a match may start at any position. *)
Fixpoint webhookRE_Match (s : string) : bool :=
  matchHere s ||
  match s with
  | String _ rest => webhookRE_Match rest
  | EmptyString => false
  end.

(** Start-up code either goes on, with the lines it has logged, or ends
    the process through [log.Fatalf], which logs and exits with status 1. *)
Inductive Boot (A : Type) : Type :=
| Continue (a : A) (log : list string)
| Fatal (log : list string).
Arguments Continue {A} a log.
Arguments Fatal {A} log.

Definition defaultListenAddress : string := "127.0.0.1:9094".

Section Startup.
(** [url.Parse(s)] returns an error. *)
Variable url_Parse_fails : string -> bool.

Definition checkWhURL (whURL : string) : Boot unit :=
  if String.eqb whURL "" then
    Fatal ["Environment variable 'DISCORD_WEBHOOK' or CLI parameter 'webhook.url' not found."]
  else if url_Parse_fails whURL then
    Fatal ["The Discord WebHook URL doesn't seem to be a valid URL."]
  else if negb (webhookRE_Match whURL) then
    Continue tt ["The Discord WebHook URL doesn't seem to be valid."]
  else Continue tt [].

(** [main] up to the call of [http.ListenAndServe]: the address it listens
    on. *)
Definition main (whURL listenAddress : string) : Boot string :=
  match checkWhURL whURL with
  | Fatal log => Fatal log
  | Continue _ log =>
      let listenAddress :=
        if String.eqb listenAddress "" then defaultListenAddress else listenAddress in
      Continue listenAddress (log ++ ["Listening on: " +:+ listenAddress])
  end.

End Startup.

(** ** The revision before batching

    The first revision of [main.go] in the source: [sendWebhook] renders
    every label, shows the description of abnormal alerts only, and sends
    all embeds in one message with [http.Post], whose result it drops. *)

Module Legacy.
Section Program.
Context {R : GoRuntime} (P : Process).

(** [time.ParseInLocation(time.RFC3339, value, time.Local)]: a timestamp of
    this layout carries its zone, so the result is that of [time.Parse]. *)
Definition time_ParseInLocation_RFC3339_Local (value : string) : Time * option string :=
  time_Parse_RFC3339 value.

(** The label loop: every label gives a line. *)
Definition alertLabels (alert : alertManAlert) : list string :=
  fold_left (fun labels kv => labels ++ [": - **_" +:+ fst kv +:+ ":_** " +:+ snd kv])
            (mapRange (Labels alert)) [].

Definition alertBody (status : string) (startAt endAt : Time)
    (labels description : list string) : string :=
  let embedDescribe := [] in
  let eventTime := if Time_After endAt startAt then endAt else startAt in
  let embedDescribe := embedDescribe ++ ["**⏰ Event Time:** " +:+ Time_Format_DateTime eventTime] in
  let embedDescribe := embedDescribe ++ ["**🏷️ Alert labels:**" +:+ nl +:+ strings_Join labels nl] in
  let embedDescribe :=
    if negb (String.eqb status "normal") then
      (* Abnormal state *)
      let embedDescribe := embedDescribe ++ ["------"] in
      embedDescribe ++ ["**📖 Description:**" +:+ nl +:+ strings_Join description nl]
    else if Time_After endAt startAt then
      let embedDescribe := embedDescribe ++ ["------"] in
      let embedDescribe := embedDescribe ++ ["**⏲️ Duration:** " +:+ Duration_String (Time_Sub endAt startAt)] in
      let embedDescribe := embedDescribe ++ [": - **_Start:_** " +:+ Time_Format_DateTime startAt] in
      embedDescribe ++ [": - **_End:_** " +:+ Time_Format_DateTime endAt]
    else embedDescribe in
  strings_Join embedDescribe nl.

(** The body of the loop over [amo.Alerts]. *)
Definition renderAlert (alert : alertManAlert) : discordEmbed :=
  let '(status, color) := alertStatus alert in
  let startAt := fst (time_ParseInLocation_RFC3339_Local (StartsAt alert)) in
  let endAt := fst (time_ParseInLocation_RFC3339_Local (EndsAt alert)) in
  let title := "[" +:+ strings_ToUpper status +:+ "] " +:+ Annotations_Summary alert in
  let labels := alertLabels alert in
  let description := alertDescription alert in
  {| Title := title;
     Description := alertBody status startAt endAt labels description;
     Color := color;
     Fields := [] |}.

Definition sendWebhook (amo : alertManOut) : M unit :=
  let DO := {| Content := "=== Alert: " +:+ Receiver amo +:+ " - " +:+ GroupLabels_Alertname amo +:+ " ===";
               Embeds := [] |} in
  let DO := fold_left (fun DO alert => {| Content := Content DO;
                                          Embeds := Embeds DO ++ [renderAlert alert] |})
                      (Alerts amo) DO in
  let DOD := json_Marshal DO in
  (if debug P then fmt_Println ("Send webhook: " +:+ DOD) else mret tt);;
  _ ← http_Post (whURL P) "application/json" DOD;
  mret tt.

End Program.
End Legacy.

(** ** More vocabulary *)

(** The lines written to standard output in a list of events. *)
Definition stdout (evs : list Event) : list string :=
  omap (fun e => match e with EvStdout line => Some line | _ => None end) evs.

(** The URL and the content type of every POST in a list of events. *)
Definition postTargets (evs : list Event) : list (string * string) :=
  omap (fun e => match e with EvPost url contentType _ => Some (url, contentType) | _ => None end)
       evs.

(** The line [fireMessageOut] logs for an answer of the network, if any. *)
Definition failureLine (r : PostResult) : option string :=
  match r with
  | TransportError err => Some ("Send discord error -: " +:+ err)
  | Response StatusCode b =>
      if (400 <=? StatusCode)%Z
      then Some ("Discord server return error -: " +:+ pretty StatusCode +:+ " " +:+ b)
      else None
  end.

(** The number of newline bytes of a string. *)
Fixpoint newlines (s : string) : nat :=
  match s with
  | EmptyString => O
  | String c rest => if Ascii.eqb c "010"%char then S (newlines rest) else newlines rest
  end.

(** Every byte of the string is a digit. *)
Fixpoint allDigits (s : string) : bool :=
  match s with
  | EmptyString => true
  | String c rest => isDigit c && allDigits rest
  end.

(** The warning message of [sendRawPromAlertWarn]. *)
Definition misconfigurationWarning : discordOut :=
  {| Content := "";
     Embeds := [ {| Title := "You have misconfigured this software";
                    Description := badString;
                    Color := ColorGrey;
                    Fields := [] |} ] |}.

(** ** Sample inputs *)

Module Sample.
Import Fixture.

(** The text of a JSON object and of a JSON array. *)
Definition object (fields : list (string * string)) : string :=
  "{" +:+ String.concat "," ((fun f => key (fst f) +:+ snd f) <$> fields) +:+ "}".

Definition array (items : list string) : string :=
  "[" +:+ String.concat "," items +:+ "]".

(** A firing alert of severity critical that has not ended. *)
Definition firing : alertManAlert :=
  {| Annotations_Description := "disk full";
     Annotations_Summary := "Disk almost full";
     EndsAt := "0001-01-01T00:00:00Z";
     GeneratorURL := "";
     Labels := <["severity" := "critical"]> (<["instance" := "db1"]> ∅);
     StartsAt := "2024-02-29T10:00:00Z";
     Status := "firing" |}.

(** The same alert, resolved an hour, a minute and a second later. *)
Definition resolved : alertManAlert :=
  {| Annotations_Description := "disk full";
     Annotations_Summary := "Disk almost full";
     EndsAt := "2024-02-29T11:01:01Z";
     GeneratorURL := "";
     Labels := <["severity" := "critical"]> (<["instance" := "db1"]> ∅);
     StartsAt := "2024-02-29T10:00:00Z";
     Status := "resolved" |}.

(** A resolved alert that came without a start time. *)
Definition unstarted : alertManAlert :=
  {| Annotations_Description := "disk full";
     Annotations_Summary := "Disk almost full";
     EndsAt := "2024-02-29T11:01:01Z";
     GeneratorURL := "";
     Labels := <["severity" := "critical"]> (<["instance" := "db1"]> ∅);
     StartsAt := "";
     Status := "resolved" |}.

(** A firing alert whose severity label says normal. *)
Definition quiet : alertManAlert :=
  {| Annotations_Description := "back to normal";
     Annotations_Summary := "Disk almost full";
     EndsAt := "0001-01-01T00:00:00Z";
     GeneratorURL := "";
     Labels := <["severity" := "normal"]> (<["instance" := "db1"]> (<["metrics_value" := "17"]> ∅));
     StartsAt := "2024-02-29T10:00:00Z";
     Status := "firing" |}.

(** A firing alert whose metric is a well-formed number beyond the largest
    [float64]. *)
Definition huge : alertManAlert :=
  {| Annotations_Description := "";
     Annotations_Summary := "Counter overflow";
     EndsAt := "";
     GeneratorURL := "";
     Labels := <["metrics_value" := "1e999"]> ∅;
     StartsAt := "";
     Status := "firing" |}.

Definition group (alerts : list alertManAlert) : alertManOut :=
  {| Alerts := alerts;
     CommonAnnotations_Summary := "";
     CommonLabels_Alertname := "DiskFull";
     ExternalURL := "";
     GroupKey := "";
     GroupLabels_Alertname := "DiskFull";
     Receiver := "ops";
     GroupStatus := "firing";
     Version := "4" |}.

(** The request body that decodes to [group [firing]]. *)
Definition firingBody : string :=
  object
    [("receiver", quote "ops"); ("status", quote "firing"); ("version", quote "4");
     ("groupLabels", object [("alertname", quote "DiskFull")]);
     ("commonLabels", object [("alertname", quote "DiskFull")]);
     ("alerts",
      array
        [object
           [("status", quote "firing");
            ("startsAt", quote "2024-02-29T10:00:00Z");
            ("endsAt", quote "0001-01-01T00:00:00Z");
            ("labels", object [("severity", quote "critical"); ("instance", quote "db1")]);
            ("annotations",
             object [("summary", quote "Disk almost full"); ("description", quote "disk full")])]])].

(** A body of 1025 bytes that is not JSON: 1024 times [a], then [b]. *)
Definition garbage : string :=
  String.concat "" (replicate 1024 "a") +:+ "b".

(** A body in the shape of raw Prometheus alerts, which the repository's
    check recognises. *)
Definition rawBody : string :=
  array [object [("labels", object [("alertname", quote "DiskFull")])]].

Definition runtime : GoRuntime := Fixture.runtime [(firingBody, group [firing])] [rawBody].

Definition webhook : string := "https://discord.com/api/webhooks/123456789012345678/token".

(** A process without [TZ], and one that names the zone by the path of its
    file, as the C library accepts it. *)
Definition process : Process :=
  {| whURL := webhook; debug := false; environ := ∅ |}.

Definition processZoneFile : Process :=
  {| whURL := webhook; debug := false;
     environ := {[ "TZ" := "/usr/share/zoneinfo/Asia/Bangkok" ]} |}.

(** A world in which nothing has happened yet and every POST fails, and
    one in which every POST succeeds. *)
Definition offline : World :=
  {| events := []; network := fun _ => TransportError "dial tcp: connection refused" |}.

Definition online : World :=
  {| events := []; network := fun _ => Response 204 "" |}.

Definition request (b : string) : Request :=
  {| Host := "127.0.0.1:9094"; Method := "POST"; URL := "/"; Body := ReadOk b |}.

(** The units of a group of 25 firing alerts. *)
Definition units25 : list discordEmbed :=
  Eval vm_compute in
    match @renderAlerts runtime process (replicate 25 firing) [] with
    | Ok units => units
    | Panic _ => []
    end.

(** [url.Parse] as far as control characters go: a URL with a byte below
    0x20 or the byte 0x7F is refused. *)
Fixpoint hasControlByte (s : string) : bool :=
  match s with
  | EmptyString => false
  | String c rest =>
      let n := N_of_ascii c in
      (n <? 32)%N || (n =? 127)%N || hasControlByte rest
  end.

(** A process in debug mode. *)
Definition processDebug : Process :=
  {| whURL := webhook; debug := true; environ := ∅ |}.

(** The unit the firing alert renders to. *)
Definition firingUnit : discordEmbed :=
  Eval vm_compute in
    match @renderAlert runtime process firing with
    | Ok unit => unit
    | Panic _ => {| Title := ""; Description := ""; Color := 0; Fields := [] |}
    end.

(** A world in which the n-th POST to come is answered with status n. *)
Definition counting : World :=
  {| events := []; network := fun n => Response (Z.of_nat n) "" |}.

(** A request whose body cannot be read. *)
Definition brokenRequest : Request :=
  {| Host := "127.0.0.1:9094"; Method := "POST"; URL := "/"; Body := ReadError "unexpected EOF" |}.

End Sample.

(** * Properties *)

(** ** Delivery and batching *)

Section Delivery.
Context {R : GoRuntime} (P : Process).

Lemma fireMessageOut_run (msg : discordOut) (w : World) :
  fireMessageOut P msg w = (Ok tt, delivered P [msg] w).
Proof.
  unfold fireMessageOut, delivered, deliveryEvents.
  unfold mbind, M_bind, mret, M_ret, fmt_Println, log_Print, emit, http_Post; simpl.
  destruct (debug P); simpl;
    destruct (network w 0%nat) as [err | code b]; simpl;
    try destruct (400 <=? code)%Z; simpl;
    rewrite <- ?app_assoc; simpl; try reflexivity.
  all: f_equal; destruct w; simpl; f_equal; rewrite ?app_nil_r; reflexivity.
Qed.

Lemma posted_app (evs1 evs2 : list Event) : posted (evs1 ++ evs2) = posted evs1 ++ posted evs2.
Proof. unfold posted. apply omap_app. Qed.

Lemma posted_deliveryEvents (msg : discordOut) (r : PostResult) :
  posted (deliveryEvents P msg r) = [json_Marshal msg].
Proof.
  unfold deliveryEvents.
  destruct (debug P), r as [err | code b]; simpl; try destruct (400 <=? code)%Z; reflexivity.
Qed.

Lemma posted_delivered (msgs : list discordOut) (w : World) :
  posted (events (delivered P msgs w)) = posted (events w) ++ (json_Marshal <$> msgs).
Proof.
  revert w. induction msgs as [| msg msgs IH]; intros w; simpl.
  - rewrite app_nil_r. reflexivity.
  - rewrite IH. simpl. rewrite posted_app, posted_deliveryEvents, <- app_assoc. reflexivity.
Qed.

Lemma runs_length (count i : nat) (units : list discordEmbed) : length (runs count i units) = count.
Proof. revert i. induction count; intros i; simpl; [reflexivity | rewrite IHcount; reflexivity]. Qed.

Lemma runs_lookup (count i k : nat) (units : list discordEmbed) :
  (k < count)%nat ->
  runs count i units !! k = Some (take MaxDiscordEmbed (drop (i + k * MaxDiscordEmbed) units)).
Proof.
  revert i k. induction count as [| count IH]; intros i k Hk; [lia |].
  destruct k as [| k]; simpl.
  - rewrite Nat.add_0_r. reflexivity.
  - rewrite IH by lia. do 3 f_equal. unfold MaxDiscordEmbed. lia.
Qed.

(** The runs that start at [i] cover the units from [i] on, when there are enough of them. *)
Lemma runs_concat (count i : nat) (units : list discordEmbed) :
  (length units <= i + count * MaxDiscordEmbed)%nat ->
  concat (runs count i units) = drop i units.
Proof.
  revert i. induction count as [| count IH]; intros i Hlen; simpl.
  - rewrite drop_ge by lia. reflexivity.
  - rewrite IH by lia. rewrite <- (take_drop MaxDiscordEmbed (drop i units)) at 2.
    rewrite drop_drop. reflexivity.
Qed.

Lemma Embeds_of_runs (content : string) (rs : list (list discordEmbed)) :
  Embeds <$> ((fun run => {| Content := content; Embeds := run |}) <$> rs) = rs.
Proof. induction rs as [| r rs IH]; simpl; [reflexivity | f_equal; exact IH]. Qed.

Lemma bulkSend_run (DO : discordOut) (embeds : list discordEmbed) (n i : nat) (w : World) :
  (length embeds - i <= n * MaxDiscordEmbed)%nat ->
  (length embeds - i > (n - 1) * MaxDiscordEmbed)%nat \/ n = 0%nat ->
  bulkSend P DO embeds i w =
  (Ok tt, delivered P ((fun run => {| Content := Content DO; Embeds := run |}) <$> runs n i embeds) w).
Proof.
  revert i w. induction n as [| n IH]; intros i w Hle Hgt.
  - rewrite bulkSend_equation_1. destruct (lt_dec i (length embeds)) as [Hlt | Hge]; [lia |].
    reflexivity.
  - rewrite bulkSend_equation_1. destruct (lt_dec i (length embeds)) as [Hlt | Hge];
      [| unfold MaxDiscordEmbed in *; lia].
    simpl. unfold mbind at 1, M_bind at 1, lift at 1.
    assert (Hchunk : (if (i + MaxDiscordEmbed <=? length embeds)%nat
                      then slice embeds i (i + MaxDiscordEmbed)
                      else slice embeds i (length embeds))
                     = Ok (take MaxDiscordEmbed (drop i embeds))).
    { destruct (Nat.leb_spec (i + MaxDiscordEmbed) (length embeds)) as [Hfull | Hpart];
        unfold slice.
      - replace ((i <=? i + MaxDiscordEmbed)%nat && (i + MaxDiscordEmbed <=? length embeds)%nat)
          with true by (symmetry; apply andb_true_iff; split; apply Nat.leb_le; lia).
        do 2 f_equal. lia.
      - replace ((i <=? length embeds)%nat && (length embeds <=? length embeds)%nat)
          with true by (symmetry; apply andb_true_iff; split; apply Nat.leb_le; lia).
        f_equal. rewrite !take_ge; [reflexivity | |]; rewrite length_drop; lia. }
    rewrite Hchunk.
    unfold mbind, M_bind. rewrite fireMessageOut_run.
    rewrite IH.
    + reflexivity.
    + unfold MaxDiscordEmbed in *. lia.
    + unfold MaxDiscordEmbed in *. destruct n; [right; reflexivity | left; lia].
Qed.
End Delivery.

Section Batching.
Context {R : GoRuntime} (P : Process).

Lemma batchCount_bounds (K : nat) :
  (0 < K)%nat ->
  (K <= batchCount K * MaxDiscordEmbed)%nat /\ ((batchCount K - 1) * MaxDiscordEmbed < K)%nat.
Proof.
  intros HK. unfold batchCount, MaxDiscordEmbed.
  destruct (Nat.eqb_spec K 0) as [-> | _]; [lia |].
  change (10 - 1)%nat with 9%nat.
  pose proof (Nat.div_mod_eq (K + 9) 10) as Hdiv.
  pose proof (Nat.mod_upper_bound (K + 9) 10 ltac:(lia)) as Hmod.
  lia.
Qed.

Lemma batches_small (content : string) (units : list discordEmbed) :
  (length units <= MaxDiscordEmbed)%nat ->
  batches content units = [ {| Content := content; Embeds := units |} ].
Proof.
  intros Hlen. unfold batches.
  assert (Hcount : batchCount (length units) = 1%nat).
  { unfold batchCount. destruct (Nat.eqb_spec (length units) 0) as [_ | Hpos]; [reflexivity |].
    unfold MaxDiscordEmbed in *. change (10 - 1)%nat with 9%nat.
    pose proof (Nat.div_mod_eq (length units + 9) 10) as Hdiv.
    pose proof (Nat.mod_upper_bound (length units + 9) 10 ltac:(lia)) as Hmod.
    lia. }
  rewrite Hcount. simpl. rewrite drop_0, take_ge by lia. reflexivity.
Qed.

(** [sendWebhook] hands the specification's batches to the Delivery
    Client, in order, whenever the alerts render. *)
Lemma sendWebhook_run (amo : alertManOut) (units : list discordEmbed) (w : World) :
  renderAlerts P (Alerts amo) [] = Ok units ->
  sendWebhook P amo w = (Ok tt, delivered P (batches (header amo) units) w).
Proof.
  intros Hrender. unfold sendWebhook. rewrite Hrender.
  unfold mbind at 1, M_bind at 1, lift at 1.
  destruct (Nat.ltb_spec MaxDiscordEmbed (length units)) as [Hbulk | Hone].
  - destruct (batchCount_bounds (length units)) as [Hup Hlow]; [unfold MaxDiscordEmbed in *; lia |].
    rewrite (bulkSend_run P _ units (batchCount (length units)) 0 w); [reflexivity | lia | lia].
  - rewrite fireMessageOut_run, batches_small by exact Hone. reflexivity.
Qed.

Lemma renderAlerts_length (alerts : list alertManAlert) (embeds units : list discordEmbed) :
  renderAlerts P alerts embeds = Ok units ->
  length units = (length embeds + length alerts)%nat.
Proof.
  revert embeds. induction alerts as [| alert alerts IH]; intros embeds Hr; simpl in Hr.
  - injection Hr as <-. simpl. lia.
  - destruct (renderAlert P alert) as [embed | msg]; simpl in Hr; [| discriminate].
    apply IH in Hr. rewrite length_app in Hr. simpl in *. lia.
Qed.

(** The units are the renderings of the alerts, one for one and in order. *)
Lemma renderAlerts_units (alerts : list alertManAlert) (embeds units : list discordEmbed) :
  renderAlerts P alerts embeds = Ok units ->
  exists rendered : list discordEmbed,
    units = embeds ++ rendered /\
    Forall2 (fun alert unit => renderAlert P alert = Ok unit) alerts rendered.
Proof.
  revert embeds. induction alerts as [| alert alerts IH]; intros embeds Hr; simpl in Hr.
  - injection Hr as <-. exists []. rewrite app_nil_r. split; [reflexivity | constructor].
  - destruct (renderAlert P alert) as [embed | msg] eqn:Hone; simpl in Hr; [| discriminate].
    destruct (IH _ Hr) as (rendered & -> & Hall).
    exists (embed :: rendered). rewrite <- app_assoc. split; [reflexivity |].
    constructor; assumption.
Qed.

End Batching.

Section BatchingClaims.
Context {R : GoRuntime} (P : Process).

(** C1. Whenever the alerts of a group render to K units (one unit for
    each alert, in the order of the alerts), [sendWebhook] returns after
    handing the Delivery Client one message for no unit and [ceil(K/10)]
    messages otherwise; the k-th message holds the units [10k .. 10k+9] in
    their order, so at most 10 of them, the unit sequences of the messages
    concatenate to the rendered sequence, and every message has the content
    ["=== Alert: <receiver> - <alertname> ==="]. The bodies POSTed are the
    JSON encodings of these messages, in order. *)
Theorem batcher_partitions (amo : alertManOut) (units : list discordEmbed) (w : World) :
  renderAlerts P (Alerts amo) [] = Ok units ->
  let K := length units in
  let msgs := batches (header amo) units in
  sendWebhook P amo w = (Ok tt, delivered P msgs w) /\
  posted (events (delivered P msgs w)) = posted (events w) ++ (json_Marshal <$> msgs) /\
  Forall2 (fun alert unit => renderAlert P alert = Ok unit) (Alerts amo) units /\
  K = length (Alerts amo) /\
  length msgs = (if decide (K = 0%nat) then 1 else (K + 9) / 10)%nat /\
  (K = 0%nat -> msgs = [ {| Content := header amo; Embeds := [] |} ]) /\
  (forall (k : nat) (msg : discordOut),
     msgs !! k = Some msg ->
     Content msg = "=== Alert: " +:+ Receiver amo +:+ " - " +:+ GroupLabels_Alertname amo +:+ " ===" /\
     Embeds msg = take 10 (drop (k * 10) units) /\
     (length (Embeds msg) <= 10)%nat) /\
  concat (Embeds <$> msgs) = units.
Proof.
  intros Hrender K msgs.
  assert (Hcount : length msgs = batchCount K).
  { unfold msgs, batches. rewrite length_fmap, runs_length. reflexivity. }
  split; [apply sendWebhook_run; exact Hrender |].
  split; [apply posted_delivered |].
  split.
  { destruct (renderAlerts_units P _ _ _ Hrender) as (rendered & -> & Hall). exact Hall. }
  split; [apply renderAlerts_length in Hrender; simpl in Hrender; exact Hrender |].
  split.
  { rewrite Hcount. unfold batchCount, MaxDiscordEmbed.
    destruct (Nat.eqb_spec K 0), (decide (K = 0%nat)); try reflexivity; contradiction. }
  split.
  { intros HK. apply nil_length_inv in HK. unfold msgs. rewrite HK. reflexivity. }
  split.
  { intros k msg Hk. unfold msgs, batches in Hk.
    rewrite list_lookup_fmap in Hk.
    assert (Hlt : (k < batchCount (length units))%nat).
    { destruct (runs _ _ _ !! k) eqn:Hrun; [| discriminate].
      apply lookup_lt_Some in Hrun. rewrite runs_length in Hrun. exact Hrun. }
    rewrite (runs_lookup _ _ _ _ Hlt) in Hk. simpl in Hk. injection Hk as <-. simpl.
    split; [reflexivity |]. split; [reflexivity |].
    rewrite length_take. unfold MaxDiscordEmbed. lia. }
  unfold msgs, batches. rewrite Embeds_of_runs, runs_concat; [apply drop_0 |].
  destruct (Nat.eq_dec (length units) 0%nat) as [Hz | Hpos]; [rewrite Hz; simpl; lia |].
  destruct (batchCount_bounds (length units)); lia.
Qed.

(** C7. A transport-level failure of [http.Post] makes [fireMessageOut] log
    it and return normally after that single POST: nothing is retried and
    nothing is reported to the caller. Hence, however the network answers,
    [sendWebhook] returns normally and POSTs every message of the batch
    exactly once, in order: a failed delivery never prevents the next. *)
Theorem delivery_is_best_effort (amo : alertManOut) (units : list discordEmbed) (w : World) :
  renderAlerts P (Alerts amo) [] = Ok units ->
  (forall (msg : discordOut) (w' : World) (err : string),
     network w' 0%nat = TransportError err ->
     fireMessageOut P msg w' =
     (Ok tt,
      {| events := events w' ++
                   (if debug P then [EvStdout ("Send webhook: " +:+ json_Marshal msg)] else []) ++
                   [EvPost (whURL P) "application/json" (json_Marshal msg);
                    EvLog ("Send discord error -: " +:+ err)];
         network := fun n => network w' (S n) |})) /\
  (forall answers : nat -> PostResult,
     let w' := {| events := events w; network := answers |} in
     fst (sendWebhook P amo w') = Ok tt /\
     posted (events (snd (sendWebhook P amo w'))) =
     posted (events w) ++ (json_Marshal <$> batches (header amo) units)).
Proof.
  intros Hrender. split.
  - intros msg w' err Hnet. rewrite fireMessageOut_run. simpl.
    unfold deliveryEvents. rewrite Hnet. reflexivity.
  - intros answers w'. rewrite (sendWebhook_run P amo units w' Hrender). simpl.
    split; [reflexivity |]. rewrite posted_delivered. reflexivity.
Qed.

End BatchingClaims.

(** A group of 25 alerts goes out as three messages of 10, 10 and 5 units. *)
Lemma batcher_partitions_witness :
  exists m1 m2 m3 : discordOut,
    posted (events (snd (@sendWebhook Sample.runtime Sample.process
                           (Sample.group (replicate 25 Sample.firing)) Sample.online))) =
    [Fixture.marshal m1; Fixture.marshal m2; Fixture.marshal m3] /\
    length (Embeds m1) = 10%nat /\ length (Embeds m2) = 10%nat /\ length (Embeds m3) = 5%nat.
Proof.
  destruct (@batcher_partitions Sample.runtime Sample.process
              (Sample.group (replicate 25 Sample.firing)) Sample.units25 Sample.online)
    as (Hrun & Hposted & _); [vm_compute; reflexivity |].
  rewrite Hrun. cbv beta iota delta [snd]. rewrite Hposted.
  eexists _, _, _. split; [reflexivity |]. vm_compute. repeat split.
Defined.

(** With every POST failing, the three messages of a group of 25 alerts are
    still attempted. *)
Lemma delivery_is_best_effort_witness :
  length (posted (events (snd (@sendWebhook Sample.runtime Sample.process
                                 (Sample.group (replicate 25 Sample.firing)) Sample.offline)))) = 3%nat.
Proof.
  destruct (@delivery_is_best_effort Sample.runtime Sample.process
              (Sample.group (replicate 25 Sample.firing)) Sample.units25 Sample.offline)
    as (_ & Hall); [vm_compute; reflexivity |].
  destruct (Hall (network Sample.offline)) as (_ & Hposted).
  change {| events := events Sample.offline; network := network Sample.offline |}
    with Sample.offline in Hposted.
  rewrite Hposted. vm_compute. reflexivity.
Defined.

(** ** The Severity Classifier *)

(** C9. [getSeverityColor] gives grey for "debug", blue for "info", orange
    for "warning", red for "critical", and red for every other string, the
    empty one included. *)
Theorem severity_colors :
  getSeverityColor "debug" = ColorGrey /\
  getSeverityColor "info" = ColorBlue /\
  getSeverityColor "warning" = ColorOrange /\
  getSeverityColor "critical" = ColorRed /\
  getSeverityColor "" = ColorRed /\
  forall severity : string,
    severity <> "debug" -> severity <> "info" ->
    severity <> "warning" -> severity <> "critical" ->
    getSeverityColor severity = ColorRed.
Proof.
  repeat (split; [reflexivity |]).
  intros severity Hdebug Hinfo Hwarning Hcritical. unfold getSeverityColor.
  apply String.eqb_neq in Hdebug, Hinfo, Hwarning, Hcritical.
  rewrite Hdebug, Hinfo, Hwarning, Hcritical. reflexivity.
Qed.

(** An unknown severity is shown in red. *)
Lemma severity_colors_witness : getSeverityColor "fatal" = ColorRed.
Proof.
  destruct severity_colors as (_ & _ & _ & _ & _ & Hother).
  apply Hother; discriminate.
Defined.

(** ** The Alert Renderer *)

Section Rendering.
Context {R : GoRuntime} (P : Process).

Lemma append_empty_r (s : string) : s +:+ "" = s.
Proof.
  induction s as [| c s IH]; [reflexivity |].
  change (String c s +:+ "") with (String c (s +:+ "")). rewrite IH. reflexivity.
Qed.

(** Splitting at newlines and joining with newlines. *)
Lemma strings_Split_cons (s : string) (sep : ascii) :
  exists piece pieces, strings_Split s sep = piece :: pieces.
Proof.
  destruct s as [| c s]; simpl; [eauto |].
  destruct (Ascii.eqb c sep); [eauto |].
  destruct (strings_Split s sep); eauto.
Qed.

Lemma strings_Split_length (s : string) :
  length (strings_Split s "010"%char) = S (newlines s).
Proof.
  induction s as [| c s IH]; [reflexivity |].
  cbn [strings_Split newlines]. destruct (Ascii.eqb c "010"%char).
  - cbn [length]. rewrite IH. reflexivity.
  - destruct (strings_Split s "010"%char) as [| piece pieces]; [discriminate IH |].
    cbn [length] in *. exact IH.
Qed.

Lemma strings_Split_pieces (s : string) :
  Forall (fun piece => newlines piece = 0%nat) (strings_Split s "010"%char).
Proof.
  induction s as [| c s IH]; [repeat constructor |].
  cbn [strings_Split]. destruct (Ascii.eqb c "010"%char) eqn:Hc.
  - constructor; [reflexivity | exact IH].
  - destruct (strings_Split s "010"%char) as [| piece pieces]; [repeat constructor; cbn; rewrite Hc; reflexivity |].
    inversion IH as [| ? ? Hpiece Hpieces]; subst.
    constructor; [cbn [newlines]; rewrite Hc; exact Hpiece | exact Hpieces].
Qed.

Lemma strings_Join_Split (s : string) :
  strings_Join (strings_Split s "010"%char) nl = s.
Proof.
  induction s as [| c s IH]; [reflexivity |].
  cbn [strings_Split]. destruct (Ascii.eqb_spec c "010"%char) as [-> | Hc].
  - destruct (strings_Split_cons s "010"%char) as (piece & pieces & Hsplit).
    rewrite Hsplit in *.
    change (strings_Join ("" :: piece :: pieces) nl)
      with ("" +:+ nl +:+ strings_Join (piece :: pieces) nl).
    rewrite IH. reflexivity.
  - destruct (strings_Split_cons s "010"%char) as (piece & pieces & Hsplit).
    rewrite Hsplit in *.
    destruct pieces as [| piece' pieces]; cbn [strings_Join] in *; rewrite <- IH; reflexivity.
Qed.

(** The timestamps of an alert once the time-zone name has resolved. *)
Lemma alertTimes_in (alert : alertManAlert) (loc : Location) :
  fst (time_LoadLocation (os_Getenv P "TZ")) = Some loc ->
  alertTimes P alert = Ok (timestampIn loc (StartsAt alert), timestampIn loc (EndsAt alert)).
Proof.
  intros Hloc. unfold alertTimes. rewrite Hloc. unfold timestampIn, time_Parse_RFC3339.
  destruct (scanRFC3339 (StartsAt alert)), (scanRFC3339 (EndsAt alert)); reflexivity.
Qed.

(** A name that [time.LoadLocation] does not resolve makes the renderer
    panic in [Time.In]. *)
Lemma alertTimes_nil (alert : alertManAlert) :
  fst (time_LoadLocation (os_Getenv P "TZ")) = None ->
  alertTimes P alert = Panic "time: missing Location in call to Time.In".
Proof. intros Hloc. unfold alertTimes. rewrite Hloc. reflexivity. Qed.

Lemma renderAlert_in (alert : alertManAlert) (loc : Location) :
  fst (time_LoadLocation (os_Getenv P "TZ")) = Some loc ->
  renderAlert P alert =
  Ok {| Title := "[" +:+ strings_ToUpper (fst (alertStatus alert)) +:+ "] " +:+
                 Annotations_Summary alert;
        Description := alertBody (timestampIn loc (StartsAt alert))
                                 (timestampIn loc (EndsAt alert))
                                 (alertLabels (fst (alertStatus alert)) alert)
                                 (alertDescription alert);
        Color := snd (alertStatus alert);
        Fields := [] |}.
Proof.
  intros Hloc. unfold renderAlert. destruct (alertStatus alert) as [status color].
  rewrite (alertTimes_in alert loc Hloc). reflexivity.
Qed.

Lemma renderAlert_nil (alert : alertManAlert) :
  fst (time_LoadLocation (os_Getenv P "TZ")) = None ->
  renderAlert P alert = Panic "time: missing Location in call to Time.In".
Proof.
  intros Hloc. unfold renderAlert. destruct (alertStatus alert) as [status color].
  rewrite (alertTimes_nil alert Hloc). reflexivity.
Qed.

(** The label loop: the lines it appends. *)
Lemma labelLoop_lines (kvs : list (string * string)) (labels : list string)
    (metricsValue : float64) (metricsConv : string) :
  fst (fst (fold_left labelStep kvs (labels, metricsValue, metricsConv))) =
  labels ++ (labelLine <$> List.filter ordinaryLabel kvs).
Proof.
  revert labels metricsValue metricsConv.
  induction kvs as [| [k v] kvs IH]; intros labels metricsValue metricsConv; simpl.
  - rewrite app_nil_r. reflexivity.
  - unfold ordinaryLabel at 1, strings_HasPrefix. simpl fst.
    destruct (String.prefix "metrics_" k); simpl.
    + destruct (String.eqb k "metrics_value"); [apply IH |].
      destruct (String.eqb k "metrics_conv"); apply IH.
    + destruct (String.eqb k "value"); simpl; [apply IH |].
      rewrite IH, <- app_assoc. reflexivity.
Qed.

(** The label loop: the metric value it leaves, for keys visited once. *)
Lemma labelLoop_value (kvs : list (string * string)) (labels : list string)
    (metricsValue : float64) (metricsConv : string) :
  NoDup kvs.*1 ->
  snd (fst (fold_left labelStep kvs (labels, metricsValue, metricsConv))) =
  match (list_to_map kvs : gmap string string) !! "metrics_value" with
  | Some v => fst (strconv_ParseFloat v)
  | None => metricsValue
  end.
Proof.
  revert labels metricsValue metricsConv.
  induction kvs as [| [k v] kvs IH]; intros labels metricsValue metricsConv Hnodup;
    [reflexivity |].
  rewrite fmap_cons, NoDup_cons in Hnodup. destruct Hnodup as [Hfresh Hnodup].
  change (fold_left labelStep ((k, v) :: kvs) (labels, metricsValue, metricsConv))
    with (fold_left labelStep kvs (labelStep (labels, metricsValue, metricsConv) (k, v))).
  change (list_to_map ((k, v) :: kvs) : gmap string string)
    with (<[k:=v]> (list_to_map kvs : gmap string string)).
  destruct (String.eqb_spec k "metrics_value") as [-> | Hk].
  - rewrite lookup_insert_eq.
    change (labelStep (labels, metricsValue, metricsConv) ("metrics_value", v))
      with (labels, fst (strconv_ParseFloat v), metricsConv).
    rewrite IH by exact Hnodup.
    rewrite (not_elem_of_list_to_map_1 kvs "metrics_value" Hfresh). reflexivity.
  - rewrite lookup_insert_ne by exact Hk.
    assert (Hstep : exists labels' metricsConv',
               labelStep (labels, metricsValue, metricsConv) (k, v) =
               (labels', metricsValue, metricsConv')).
    { unfold labelStep. apply String.eqb_neq in Hk. rewrite Hk.
      destruct (strings_HasPrefix k "metrics_");
        [destruct (String.eqb k "metrics_conv") | destruct (String.eqb k "value")];
        eauto. }
    destruct Hstep as (labels' & metricsConv' & ->). apply IH, Hnodup.
Qed.

(** The label loop: the conversion tag it leaves, for keys visited once. *)
Lemma labelLoop_conv (kvs : list (string * string)) (labels : list string)
    (metricsValue : float64) (metricsConv : string) :
  NoDup kvs.*1 ->
  snd (fold_left labelStep kvs (labels, metricsValue, metricsConv)) =
  default metricsConv ((list_to_map kvs : gmap string string) !! "metrics_conv").
Proof.
  revert labels metricsValue metricsConv.
  induction kvs as [| [k v] kvs IH]; intros labels metricsValue metricsConv Hnodup;
    [reflexivity |].
  rewrite fmap_cons, NoDup_cons in Hnodup. destruct Hnodup as [Hfresh Hnodup].
  change (fold_left labelStep ((k, v) :: kvs) (labels, metricsValue, metricsConv))
    with (fold_left labelStep kvs (labelStep (labels, metricsValue, metricsConv) (k, v))).
  change (list_to_map ((k, v) :: kvs) : gmap string string)
    with (<[k:=v]> (list_to_map kvs : gmap string string)).
  destruct (String.eqb_spec k "metrics_conv") as [-> | Hk].
  - rewrite lookup_insert_eq.
    change (labelStep (labels, metricsValue, metricsConv) ("metrics_conv", v))
      with (labels, metricsValue, v).
    rewrite IH by exact Hnodup.
    rewrite (not_elem_of_list_to_map_1 kvs "metrics_conv" Hfresh). reflexivity.
  - rewrite lookup_insert_ne by exact Hk.
    assert (Hstep : exists labels' metricsValue',
               labelStep (labels, metricsValue, metricsConv) (k, v) =
               (labels', metricsValue', metricsConv)).
    { unfold labelStep. apply String.eqb_neq in Hk. rewrite Hk.
      destruct (strings_HasPrefix k "metrics_");
        [destruct (String.eqb k "metrics_value") | destruct (String.eqb k "value")];
        eauto. }
    destruct Hstep as (labels' & metricsValue' & ->). apply IH, Hnodup.
Qed.

(** For a status that is "normal" the label block has the ordinary lines
    only. *)
Lemma alertLabels_normal (alert : alertManAlert) :
  alertLabels "normal" alert = labelLine <$> List.filter ordinaryLabel (mapRange (Labels alert)).
Proof.
  unfold alertLabels.
  pose proof (labelLoop_lines (mapRange (Labels alert)) [] f64_zero "") as Hlines.
  destruct (fold_left labelStep (mapRange (Labels alert)) ([], f64_zero, ""))
    as [[labels metricsValue] metricsConv].
  simpl in *. exact Hlines.
Qed.

(** The label block of any status, when [range] visits every label once. *)
Lemma alertLabels_lines `{!GoRuntimeLaws R} (status : string) (alert : alertManAlert) :
  alertLabels status alert =
  (labelLine <$> List.filter ordinaryLabel (mapRange (Labels alert))) ++
  (if String.eqb status "normal" then []
   else [valueLine (fst (metricOf (Labels alert))) (snd (metricOf (Labels alert)))]).
Proof.
  unfold alertLabels.
  pose proof (mapRange_perm (Labels alert)) as Hperm.
  assert (Hnodup : NoDup (mapRange (Labels alert)).*1).
  { rewrite Hperm. apply NoDup_fst_map_to_list. }
  assert (Hmap : list_to_map (mapRange (Labels alert)) = Labels alert).
  { symmetry. apply list_to_map_flip. symmetry. exact Hperm. }
  pose proof (labelLoop_lines (mapRange (Labels alert)) [] f64_zero "") as Hlines.
  pose proof (labelLoop_value (mapRange (Labels alert)) [] f64_zero "" Hnodup) as Hvalue.
  pose proof (labelLoop_conv (mapRange (Labels alert)) [] f64_zero "" Hnodup) as Hconv.
  rewrite Hmap in Hvalue, Hconv.
  destruct (fold_left labelStep (mapRange (Labels alert)) ([], f64_zero, ""))
    as [[labels metricsValue] metricsConv].
  simpl in Hlines, Hvalue, Hconv. subst labels metricsValue metricsConv.
  unfold metricOf, valueLine. simpl fst. simpl snd.
  destruct (String.eqb status "normal"); simpl; [rewrite app_nil_r |]; reflexivity.
Qed.

End Rendering.

Section RenderingClaims.
Context {R : GoRuntime} (P : Process).

(** C2. An alert whose status is "resolved" has the display status
    "normal" and the colour green whatever its labels are, and, the
    time-zone name resolving, it renders to a green unit whose title is
    "[NORMAL] " followed by the summary. *)
Theorem resolved_is_green_and_normal (alert : alertManAlert) (loc : Location) :
  Status alert = "resolved" ->
  fst (time_LoadLocation (os_Getenv P "TZ")) = Some loc ->
  alertStatus alert = ("normal", ColorGreen) /\
  exists body : string,
    renderAlert P alert =
    Ok {| Title := "[NORMAL] " +:+ Annotations_Summary alert;
          Description := body;
          Color := ColorGreen;
          Fields := [] |}.
Proof.
  intros Hstatus Hloc.
  assert (Hdisplay : alertStatus alert = ("normal", ColorGreen)).
  { unfold alertStatus. rewrite Hstatus. reflexivity. }
  split; [exact Hdisplay |].
  rewrite (renderAlert_in P alert loc Hloc), Hdisplay. eexists. reflexivity.
Qed.

(** C3, as the code has it. The body of a rendered alert is, in this
    order: the event-time line, which shows the later of start and end; the
    labels block; a separator; the description block, for every alert, with
    one bullet for each line of the description; and, exactly when the end
    is after the start, a separator, the duration line, the start line and
    the end line. The duration shown is end minus start when that is at
    most the largest [Duration], [2^63 - 1] nanoseconds (some 292 years),
    and the largest [Duration] otherwise: [Time.Sub] saturates. *)
Theorem body_sections_in_order (alert : alertManAlert) (loc : Location) :
  fst (time_LoadLocation (os_Getenv P "TZ")) = Some loc ->
  let startAt := timestampIn loc (StartsAt alert) in
  let endAt := timestampIn loc (EndsAt alert) in
  let ended := (instant startAt <? instant endAt)%Z in
  let eventTime := if ended then endAt else startAt in
  let elapsed := instant endAt - instant startAt in
  let duration := if (elapsed <=? maxInt64)%Z then elapsed else maxInt64 in
  let lines := strings_Split (Annotations_Description alert) "010"%char in
  exists unit : discordEmbed,
    renderAlert P alert = Ok unit /\
    instant eventTime = Z.max (instant startAt) (instant endAt) /\
    (lines <> [] /\ strings_Join lines nl = Annotations_Description alert) /\
    Description unit =
    ("**⏰ Event Time:** " +:+ Time_Format_DateTime eventTime) +:+ nl +:+
    ("**🏷️ Alert labels:**" +:+ nl +:+
     strings_Join (alertLabels (fst (alertStatus alert)) alert) nl) +:+ nl +:+
    "------" +:+ nl +:+
    ("**📖 Description:**" +:+ nl +:+
     strings_Join ((fun line => ": - " +:+ line) <$> lines) nl) +:+
    (if ended then
       nl +:+ "------" +:+ nl +:+
       ("**⏲️ Duration:** " +:+ Duration_String duration) +:+ nl +:+
       (": - **_Start:_** " +:+ Time_Format_DateTime startAt) +:+ nl +:+
       (": - **_End:_** " +:+ Time_Format_DateTime endAt)
     else "").
Proof.
  intros Hloc startAt endAt ended eventTime elapsed duration lines.
  eexists. split; [apply (renderAlert_in P alert loc Hloc) |].
  split.
  { unfold eventTime, ended. destruct (Z.ltb_spec (instant startAt) (instant endAt)); lia. }
  split.
  { split; [| apply strings_Join_Split].
    destruct (strings_Split_cons (Annotations_Description alert) "010"%char)
      as (piece & pieces & Hsplit).
    unfold lines. rewrite Hsplit. discriminate. }
  assert (Hsub : ended = true -> Time_Sub endAt startAt = duration).
  { unfold ended, duration, elapsed, Time_Sub, minInt64, maxInt64. intros Hended.
    apply Z.ltb_lt in Hended.
    destruct (Z.ltb_spec (instant endAt - instant startAt) (- 2 ^ 63)); [lia |].
    destruct (Z.ltb_spec (2 ^ 63 - 1) (instant endAt - instant startAt)),
             (Z.leb_spec (instant endAt - instant startAt) (2 ^ 63 - 1)); lia. }
  simpl Description. unfold alertBody, alertDescription, Time_After.
  fold startAt endAt lines. fold ended. fold ended in Hsub.
  unfold eventTime. destruct ended; simpl.
  - rewrite Hsub by reflexivity. reflexivity.
  - rewrite append_empty_r. reflexivity.
Qed.

(** C5, as the code has it. When the name in [TZ] resolves to a location,
    rendering completes for every pair of timestamp strings: each
    timestamp is the parsed instant, or the zero time when the string does
    not parse, shown in that location. The name is resolved by
    [time.LoadLocation] when the alert is rendered; an empty or unset [TZ]
    resolves to UTC. *)
Theorem timestamps_degrade_to_zero (alert : alertManAlert) (loc : Location) :
  fst (time_LoadLocation (os_Getenv P "TZ")) = Some loc ->
  (exists unit : discordEmbed, renderAlert P alert = Ok unit) /\
  alertTimes P alert = Ok (timestampIn loc (StartsAt alert), timestampIn loc (EndsAt alert)) /\
  (forall value : string,
     snd (time_Parse_RFC3339 value) <> None ->
     fst (time_Parse_RFC3339 value) = zeroTime /\
     timestampIn loc value = {| instant := instant zeroTime; location := loc |}) /\
  (os_Getenv P "TZ" = "" -> loc = UTC).
Proof.
  intros Hloc.
  split; [eexists; apply (renderAlert_in P alert loc Hloc) |].
  split; [apply alertTimes_in, Hloc |].
  split.
  - intros value. unfold time_Parse_RFC3339, timestampIn.
    destruct (scanRFC3339 value); simpl; [congruence | split; reflexivity].
  - intros Hempty. rewrite Hempty in Hloc. simpl in Hloc. congruence.
Qed.

(** C10. A firing alert whose "severity" label is "normal" is shown as
    normal: the title is "[NORMAL] " followed by the summary and the label
    block has the ordinary label lines only, without a value line; but its
    colour is red, the classifier's colour for an unknown severity, not
    green. *)
Theorem firing_with_severity_normal (alert : alertManAlert) (loc : Location) :
  Status alert = "firing" ->
  Labels alert !! "severity" = Some "normal" ->
  fst (time_LoadLocation (os_Getenv P "TZ")) = Some loc ->
  alertStatus alert = ("normal", ColorRed) /\
  ColorRed <> ColorGreen /\
  alertLabels "normal" alert =
  labelLine <$> List.filter ordinaryLabel (mapRange (Labels alert)) /\
  renderAlert P alert =
  Ok {| Title := "[NORMAL] " +:+ Annotations_Summary alert;
        Description :=
          alertBody (timestampIn loc (StartsAt alert)) (timestampIn loc (EndsAt alert))
            (labelLine <$> List.filter ordinaryLabel (mapRange (Labels alert)))
            (alertDescription alert);
        Color := ColorRed;
        Fields := [] |}.
Proof.
  intros Hstatus Hseverity Hloc.
  assert (Hdisplay : alertStatus alert = ("normal", ColorRed)).
  { unfold alertStatus. rewrite Hstatus, Hseverity. reflexivity. }
  split; [exact Hdisplay |].
  split; [discriminate |].
  split; [apply alertLabels_normal |].
  rewrite (renderAlert_in P alert loc Hloc), Hdisplay. simpl fst. simpl snd.
  rewrite alertLabels_normal. reflexivity.
Qed.

End RenderingClaims.

Lemma NoDup_List_filter {A : Type} (f : A -> bool) (l : list A) :
  NoDup l -> NoDup (List.filter f l).
Proof.
  induction 1 as [| x l Hx Hl IH]; simpl; [constructor |].
  destruct (f x); [constructor; [| exact IH] | exact IH].
  rewrite list_elem_of_In, filter_In, <- list_elem_of_In. tauto.
Qed.

(** C4, as the code has it. The label block is the bulleted lines of the
    labels whose key neither starts with "metrics_" nor is "value", in the
    order [range] yields them, followed, unless the display status is
    "normal", by exactly one bulleted line for the auxiliary metric
    formatted by [valueConv]. The tag is the "metrics_conv" label, or
    empty. The metric is what [strconv.ParseFloat] returns for the
    "metrics_value" label with its error dropped: the parsed number, 0.0
    for a malformed one, plus or minus infinity for a well-formed one beyond
    the [float64] range; and 0.0 without that label. *)
Theorem labels_are_partitioned {R : GoRuntime} `{!GoRuntimeLaws R}
    (status : string) (alert : alertManAlert) :
  let labels := Labels alert in
  let ordinary := List.filter ordinaryLabel (mapRange labels) in
  let metric := metricOf labels in
  alertLabels status alert =
  (labelLine <$> ordinary) ++
  (if String.eqb status "normal" then []
   else [": - **_value:_** " +:+ valueConv (fst metric) (snd metric)]) /\
  (forall k v : string,
     (k, v) ∈ ordinary <->
     labels !! k = Some v /\ String.prefix "metrics_" k = false /\ k <> "value") /\
  NoDup ordinary /\
  fst metric =
  match labels !! "metrics_value" with
  | None => f64_zero
  | Some v =>
      match scanFloat64 v with
      | FloatOk f => f
      | FloatSyntax => f64_zero
      | FloatRange neg => f64_inf neg
      end
  end /\
  snd metric = default "" (labels !! "metrics_conv").
Proof.
  intros labels ordinary metric.
  pose proof (mapRange_perm labels) as Hperm.
  split; [apply alertLabels_lines |].
  split.
  { intros k v. unfold ordinary. rewrite list_elem_of_In, filter_In, <- list_elem_of_In.
    rewrite Hperm, elem_of_map_to_list. unfold ordinaryLabel. simpl.
    rewrite andb_true_iff, !negb_true_iff, String.eqb_neq. tauto. }
  split.
  { unfold ordinary. apply NoDup_List_filter. rewrite Hperm. apply NoDup_map_to_list. }
  split; [| reflexivity].
  unfold metric, metricOf, strconv_ParseFloat. simpl.
  destruct (labels !! "metrics_value") as [v |]; [| reflexivity].
  destruct (scanFloat64 v); reflexivity.
Qed.

(** ** The properties on the sample inputs *)

Lemma resolved_is_green_and_normal_witness :
  exists body : string,
    @renderAlert Sample.runtime Sample.process Sample.resolved =
    Ok {| Title := "[NORMAL] Disk almost full"; Description := body;
          Color := ColorGreen; Fields := [] |}.
Proof.
  apply (@resolved_is_green_and_normal Sample.runtime Sample.process Sample.resolved UTC);
    reflexivity.
Defined.

Lemma body_sections_in_order_witness :
  exists unit : discordEmbed,
    @renderAlert Sample.runtime Sample.process Sample.resolved = Ok unit /\
    String.prefix "**⏰ Event Time:** 2024-02-29 11:01:01" (Description unit) = true.
Proof.
  destruct (@body_sections_in_order Sample.runtime Sample.process Sample.resolved UTC)
    as (unit & Hunit & _ & _ & Hbody); [reflexivity |].
  exists unit. split; [exact Hunit |]. rewrite Hbody. vm_compute. reflexivity.
Defined.

Lemma timestamps_degrade_to_zero_witness :
  @alertTimes Sample.runtime Sample.process Sample.huge =
  Ok (zeroTime, zeroTime).
Proof.
  destruct (@timestamps_degrade_to_zero Sample.runtime Sample.process Sample.huge UTC)
    as (_ & Htimes & _); [reflexivity |].
  rewrite Htimes. reflexivity.
Defined.

Lemma firing_with_severity_normal_witness :
  alertStatus Sample.quiet = ("normal", ColorRed) /\
  @alertLabels Sample.runtime "normal" Sample.quiet =
  [": - **_severity:_** normal"; ": - **_instance:_** db1"].
Proof.
  destruct (@firing_with_severity_normal Sample.runtime Sample.process Sample.quiet UTC)
    as (Hdisplay & _ & Hlabels & _); [reflexivity | reflexivity | reflexivity |].
  split; [exact Hdisplay |]. rewrite Hlabels. vm_compute. reflexivity.
Defined.

Lemma labels_are_partitioned_witness :
  @alertLabels Sample.runtime "critical" Sample.firing =
  [": - **_severity:_** critical"; ": - **_instance:_** db1"; ": - **_value:_** 0.00"].
Proof.
  destruct (@labels_are_partitioned Sample.runtime
              ltac:(constructor; intros m; reflexivity) "critical" Sample.firing)
    as (Hlines & _).
  rewrite Hlines. vm_compute. reflexivity.
Defined.

(** C3 as the specification words it fails on the duration line. An alert
    that came without a start time has the zero time as its start; its end,
    in 2024, is after it, and end minus start is 17734667h1m1s. The
    duration line does not show that: it shows the largest [Duration]. *)
Lemma duration_saturates_counterexample :
  StartsAt Sample.unstarted = "" /\
  @alertTimes Sample.runtime Sample.process Sample.unstarted =
  Ok (zeroTime, {| instant := 1709204461 * Second; location := UTC |}) /\
  Fixture.duration_string (1709204461 * Second - instant zeroTime) = "17734667h1m1s" /\
  @renderAlert Sample.runtime Sample.process Sample.unstarted =
  Ok {| Title := "[NORMAL] Disk almost full";
        Description :=
          strings_Join
            ["**⏰ Event Time:** 2024-02-29 11:01:01";
             "**🏷️ Alert labels:**";
             ": - **_severity:_** critical";
             ": - **_instance:_** db1";
             "------";
             "**📖 Description:**";
             ": - disk full";
             "------";
             "**⏲️ Duration:** 2562047h47m16.854775807s";
             ": - **_Start:_** 0001-01-01 00:00:00";
             ": - **_End:_** 2024-02-29 11:01:01"] nl;
        Color := ColorGreen;
        Fields := [] |} /\
  "2562047h47m16.854775807s" <> "17734667h1m1s".
Proof.
  split; [reflexivity |]. split; [vm_compute; reflexivity |].
  split; [vm_compute; reflexivity |]. split; [vm_compute; reflexivity | discriminate].
Qed.

(** C4 as the specification words it fails on a metric beyond the
    [float64] range: ["1e999"] is a parse failure ([strconv.ParseFloat]
    returns an error), yet the value line shows plus infinity, not 0.0. *)
Lemma metric_out_of_range_counterexample :
  Labels Sample.huge !! "metrics_value" = Some "1e999" /\
  @strconv_ParseFloat Sample.runtime "1e999" = (f64_inf false, Some "value out of range") /\
  f64_inf false <> f64_zero /\
  @alertLabels Sample.runtime "firing" Sample.huge = [": - **_value:_** +Inf"] /\
  @alertLabels Sample.runtime "firing" Sample.huge <> [": - **_value:_** " +:+ @valueConv Sample.runtime f64_zero ""].
Proof.
  split; [reflexivity |]. split; [reflexivity |]. split; [discriminate |].
  split; [vm_compute; reflexivity |]. vm_compute. discriminate.
Qed.

(** C5 as the specification words it fails twice. With [TZ] unset the
    timestamps are shown in UTC although the local zone is another one (in
    the sample, seven hours ahead); and a name that [time.LoadLocation]
    rejects, such as the path of a zone file, makes rendering panic instead
    of falling back. *)
Lemma timezone_fallback_counterexample :
  (exists startAt endAt : Time,
     @alertTimes Sample.runtime Sample.process Sample.firing = Ok (startAt, endAt) /\
     location startAt = UTC /\ UTC <> Local /\
     Fixture.format_datetime startAt = "2024-02-29 10:00:00" /\
     Fixture.format_datetime {| instant := instant startAt; location := Local |} =
     "2024-02-29 17:00:00") /\
  os_Getenv Sample.processZoneFile "TZ" = "/usr/share/zoneinfo/Asia/Bangkok" /\
  @renderAlert Sample.runtime Sample.processZoneFile Sample.firing =
  Panic "time: missing Location in call to Time.In".
Proof.
  split.
  - eexists _, _. split; [vm_compute; reflexivity |].
    split; [reflexivity |]. split; [discriminate |]. split; vm_compute; reflexivity.
  - split; vm_compute; reflexivity.
Qed.

(** ** The Ingress Handler *)

Section Ingress.
Context {R : GoRuntime} (P : Process).

Lemma handler_decodes (r : Request) (b : string) (w : World) :
  Body r = ReadOk b ->
  handler P r w =
  match json_Unmarshal b with
  | None =>
      if isRawPromAlert b then sendRawPromAlertWarn P (received P r b w)
      else if (1024 <? String.length b)%nat then
        (head ← lift (slice_to b 1023);
         log_Print ("Failed to unpack inbound alert request - " +:+ head +:+ "..."))
          (received P r b w)
      else log_Print ("Failed to unpack inbound alert request - " +:+ b) (received P r b w)
  | Some amo => sendWebhook P amo (received P r b w)
  end.
Proof.
  intros Hbody. unfold handler, received. rewrite Hbody.
  unfold mbind at 1 2 3, M_bind at 1 2 3, mret at 1, M_ret at 1, log_Print at 1, emit at 1.
  cbv beta iota. destruct (debug P).
  - unfold mbind at 1, M_bind at 1, fmt_Println, emit. cbv beta iota.
    cbn [events network]. rewrite <- app_assoc.
    destruct (json_Unmarshal b); [reflexivity |].
    destruct (isRawPromAlert b); [reflexivity |].
    destruct (1024 <? String.length b)%nat; reflexivity.
  - unfold mbind at 1, M_bind at 1, mret at 1, M_ret at 1. cbv beta iota.
    destruct (json_Unmarshal b); [reflexivity |].
    destruct (isRawPromAlert b); [reflexivity |].
    destruct (1024 <? String.length b)%nat; reflexivity.
Qed.

(** An undecodable body that has not the foreign shape is logged and
    nothing is delivered: the whole body up to 1024 bytes, and the first
    1023 bytes followed by three dots beyond. *)
Lemma handler_unparseable (r : Request) (b : string) (w : World) :
  Body r = ReadOk b ->
  json_Unmarshal b = None ->
  isRawPromAlert b = false ->
  handler P r w =
  (Ok tt,
   {| events := events (received P r b w) ++
                [EvLog ("Failed to unpack inbound alert request - " +:+
                        (if (1024 <? String.length b)%nat
                         then String.substring 0 1023 b +:+ "..."
                         else b))];
      network := network w |}).
Proof.
  intros Hbody Hjson Hraw. rewrite (handler_decodes r b w Hbody), Hjson, Hraw.
  destruct (Nat.ltb_spec 1024 (String.length b)) as [Hlong | Hshort]; [| reflexivity].
  unfold slice_to. destruct (Nat.leb_spec 1023 (String.length b)) as [_ | Hlt]; [| lia].
  reflexivity.
Qed.

(** The alerts of a non-empty group do not render when the time-zone name
    does not resolve. *)
Lemma renderAlerts_nil (alerts : list alertManAlert) :
  alerts <> [] ->
  fst (time_LoadLocation (os_Getenv P "TZ")) = None ->
  renderAlerts P alerts [] = Panic "time: missing Location in call to Time.In".
Proof.
  intros Hne Hloc. destruct alerts as [| alert alerts]; [contradiction |].
  simpl. rewrite (renderAlert_nil P alert Hloc). reflexivity.
Qed.

(** The alerts of every group render when the time-zone name resolves. *)
Lemma renderAlerts_in (alerts : list alertManAlert) (embeds : list discordEmbed) (loc : Location) :
  fst (time_LoadLocation (os_Getenv P "TZ")) = Some loc ->
  exists units : list discordEmbed, renderAlerts P alerts embeds = Ok units.
Proof.
  intros Hloc. revert embeds. induction alerts as [| alert alerts IH]; intros embeds; simpl.
  - eexists. reflexivity.
  - rewrite (renderAlert_in P alert loc Hloc). simpl. apply IH.
Qed.

(** The caller gets status 200 and an empty body on every path on which
    the body was read and the time-zone name resolves. *)
Lemma serveHTTP_replies (r : Request) (b : string) (loc : Location) (w : World) :
  Body r = ReadOk b ->
  fst (time_LoadLocation (os_Getenv P "TZ")) = Some loc ->
  fst (serveHTTP P r w) = Replied 200 "".
Proof.
  intros Hbody Hloc. unfold serveHTTP. rewrite (handler_decodes r b w Hbody).
  destruct (json_Unmarshal b) as [amo |].
  - destruct (renderAlerts_in (Alerts amo) [] loc Hloc) as [units Hunits].
    rewrite (sendWebhook_run P amo units _ Hunits). reflexivity.
  - destruct (isRawPromAlert b); [reflexivity |].
    destruct (Nat.ltb_spec 1024 (String.length b)) as [Hlong | Hshort]; [| reflexivity].
    unfold mbind, M_bind, lift, slice_to.
    destruct (Nat.leb_spec 1023 (String.length b)) as [_ | Hlt]; [reflexivity | lia].
Qed.

(** A decoded group with an alert gets no reply, and nothing is delivered,
    when the time-zone name does not resolve. *)
Lemma serveHTTP_aborts (r : Request) (b : string) (amo : alertManOut) (w : World) :
  Body r = ReadOk b ->
  json_Unmarshal b = Some amo ->
  Alerts amo <> [] ->
  fst (time_LoadLocation (os_Getenv P "TZ")) = None ->
  serveHTTP P r w = (Aborted, received P r b w).
Proof.
  intros Hbody Hjson Hne Hloc. unfold serveHTTP.
  rewrite (handler_decodes r b w Hbody), Hjson. unfold sendWebhook.
  rewrite (renderAlerts_nil (Alerts amo) Hne Hloc). reflexivity.
Qed.

End Ingress.

(** C6 fails on the code by one byte. For the 1025-byte body ["aaa...ab"],
    which does not decode and has not the foreign shape, the handler
    delivers nothing and logs the first 1023 bytes followed by the dots:
    the 1024th byte of the body is not in the log. *)
Theorem unparseable_body_log_stops_at_1023 :
  let result := @handler Sample.runtime Sample.process (Sample.request Sample.garbage)
                  Sample.online in
  String.length Sample.garbage = 1025%nat /\
  json_Unmarshal (GoRuntime := Sample.runtime) Sample.garbage = None /\
  isRawPromAlert (GoRuntime := Sample.runtime) Sample.garbage = false /\
  fst result = Ok tt /\
  posted (events (snd result)) = [] /\
  logged (events (snd result)) =
  ["127.0.0.1:9094 - [POST] /";
   "Failed to unpack inbound alert request - " +:+
   String.concat "" (replicate 1023 "a") +:+ "..."] /\
  String.substring 0 1024 Sample.garbage = String.concat "" (replicate 1024 "a") /\
  String.concat "" (replicate 1023 "a") <> String.concat "" (replicate 1024 "a").
Proof.
  intros result.
  assert (Hrun : result =
                 (Ok tt,
                  {| events := [EvLog "127.0.0.1:9094 - [POST] /";
                                EvLog ("Failed to unpack inbound alert request - " +:+
                                       String.concat "" (replicate 1023 "a") +:+ "...")];
                     network := network Sample.online |})).
  { unfold result.
    rewrite (@handler_unparseable Sample.runtime Sample.process _ Sample.garbage);
      vm_compute; reflexivity. }
  split; [vm_compute; reflexivity |].
  split; [vm_compute; reflexivity |].
  split; [vm_compute; reflexivity |].
  rewrite Hrun.
  split; [reflexivity |]. split; [reflexivity |]. split; [reflexivity |].
  split; [vm_compute; reflexivity |].
  intros Heq. apply (f_equal String.length) in Heq. vm_compute in Heq. discriminate.
Qed.

(** C8 fails on the code when [TZ] holds a name that [time.LoadLocation]
    does not resolve, here the path of a zone file: the request body decodes
    to a group with one alert, rendering panics, and the caller gets no
    reply instead of status 200; nothing is delivered. With [TZ] unset the
    same request is answered with status 200 and an empty body. *)
Theorem no_reply_when_zone_unresolved :
  os_Getenv Sample.processZoneFile "TZ" = "/usr/share/zoneinfo/Asia/Bangkok" /\
  json_Unmarshal (GoRuntime := Sample.runtime) Sample.firingBody =
  Some (Sample.group [Sample.firing]) /\
  fst (@serveHTTP Sample.runtime Sample.processZoneFile (Sample.request Sample.firingBody)
         Sample.online) = Aborted /\
  posted (events (snd (@serveHTTP Sample.runtime Sample.processZoneFile
                         (Sample.request Sample.firingBody) Sample.online))) = [] /\
  fst (@serveHTTP Sample.runtime Sample.process (Sample.request Sample.firingBody)
         Sample.online) = Replied 200 "".
Proof.
  split; [vm_compute; reflexivity |].
  split; [vm_compute; reflexivity |].
  rewrite (@serveHTTP_aborts Sample.runtime Sample.processZoneFile _ Sample.firingBody
             (Sample.group [Sample.firing]));
    [| reflexivity | vm_compute; reflexivity | discriminate | vm_compute; reflexivity].
  split; [reflexivity |]. split; [reflexivity |].
  apply (@serveHTTP_replies Sample.runtime Sample.process _ Sample.firingBody UTC);
    reflexivity.
Qed.

(** ** Scenarios of the specification, run on the sample inputs *)

(** A firing alert of severity critical: a red unit titled [CRITICAL], with
    the instance line and the description, and no duration block. *)
Example scenario_firing :
  @renderAlert Sample.runtime Sample.process Sample.firing =
  Ok {| Title := "[CRITICAL] Disk almost full";
        Description :=
          "**⏰ Event Time:** 2024-02-29 10:00:00" +:+ nl +:+
          "**🏷️ Alert labels:**" +:+ nl +:+
          ": - **_severity:_** critical" +:+ nl +:+
          ": - **_instance:_** db1" +:+ nl +:+
          ": - **_value:_** 0.00" +:+ nl +:+
          "------" +:+ nl +:+
          "**📖 Description:**" +:+ nl +:+
          ": - disk full";
        Color := 0x992D22;
        Fields := [] |}.
Proof. vm_compute. reflexivity. Qed.

(** The same alert, resolved: a green unit titled [NORMAL], without a value
    line and with the duration block. *)
Example scenario_resolved :
  @renderAlert Sample.runtime Sample.process Sample.resolved =
  Ok {| Title := "[NORMAL] Disk almost full";
        Description :=
          "**⏰ Event Time:** 2024-02-29 11:01:01" +:+ nl +:+
          "**🏷️ Alert labels:**" +:+ nl +:+
          ": - **_severity:_** critical" +:+ nl +:+
          ": - **_instance:_** db1" +:+ nl +:+
          "------" +:+ nl +:+
          "**📖 Description:**" +:+ nl +:+
          ": - disk full" +:+ nl +:+
          "------" +:+ nl +:+
          "**⏲️ Duration:** 1h1m1s" +:+ nl +:+
          ": - **_Start:_** 2024-02-29 10:00:00" +:+ nl +:+
          ": - **_End:_** 2024-02-29 11:01:01";
        Color := 0x2ECC71;
        Fields := [] |}.
Proof. vm_compute. reflexivity. Qed.

(** A decoded group with one alert: one POST, and the reply is 200. *)
Example scenario_one_alert :
  exists unit : discordEmbed,
    @renderAlert Sample.runtime Sample.process Sample.firing = Ok unit /\
    @serveHTTP Sample.runtime Sample.process (Sample.request Sample.firingBody) Sample.online =
    (Replied 200 "",
     {| events := [EvLog "127.0.0.1:9094 - [POST] /";
                   EvPost Sample.webhook "application/json"
                     (Fixture.marshal {| Content := "=== Alert: ops - DiskFull ===";
                                         Embeds := [unit] |})];
        network := network Sample.online |}).
Proof. eexists. split; vm_compute; reflexivity. Qed.

(** A body of the foreign shape: the three log lines and exactly one POST,
    of the fixed warning. *)
Example scenario_foreign_shape :
  let result := @serveHTTP Sample.runtime Sample.process (Sample.request Sample.rawBody)
                  Sample.online in
  fst result = Replied 200 "" /\
  posted (events (snd result)) =
  [Fixture.marshal
     {| Content := "";
        Embeds := [ {| Title := "You have misconfigured this software";
                       Description := badString;
                       Color := ColorGrey;
                       Fields := [] |} ] |}].
Proof. split; vm_compute; reflexivity. Qed.

(** An alert that is neither firing nor resolved keeps its status and the
    grey colour; a firing alert without a severity label is shown as
    firing, in red. *)
Example scenario_other_status (alert : alertManAlert) :
  (Status alert = "pending" -> alertStatus alert = ("pending", ColorGrey)) /\
  (Status alert = "firing" -> Labels alert !! "severity" = None ->
   alertStatus alert = ("firing", ColorRed)).
Proof.
  split.
  - intros Hstatus. unfold alertStatus. rewrite Hstatus. reflexivity.
  - intros Hstatus Hseverity. unfold alertStatus. rewrite Hstatus, Hseverity. reflexivity.
Qed.

(** * Further properties *)

(** ** The Value Formatter *)

Section ValueFormatter.
Context {R : GoRuntime}.

(** X1. A conversion tag other than "duration", "timestamp" and "updown"
    (the empty tag, an unknown one, another spelling) makes [valueConv]
    print the value with two decimals. *)
Theorem valueConv_other_tag (v : float64) (conv : string) :
  conv <> "duration" -> conv <> "timestamp" -> conv <> "updown" ->
  valueConv v conv = Sprintf_2f v.
Proof.
  intros Hduration Htimestamp Hupdown. unfold valueConv.
  apply String.eqb_neq in Hduration, Htimestamp, Hupdown.
  rewrite Hduration, Htimestamp, Hupdown. reflexivity.
Qed.

Lemma wrap64_small (z : Z) : minInt64 <= z <= maxInt64 -> wrap64 z = z.
Proof.
  unfold wrap64, minInt64, maxInt64. intros Hz.
  rewrite Z.mod_small by lia. lia.
Qed.

Lemma wrap64_above (z : Z) : maxInt64 < z <= maxInt64 + 2 ^ 64 -> wrap64 z = z - 2 ^ 64.
Proof.
  unfold wrap64, maxInt64. intros Hz.
  replace (z + 2 ^ 63) with ((z + 2 ^ 63 - 2 ^ 64) + 1 * 2 ^ 64) by lia.
  rewrite Z.mod_add by lia. rewrite Z.mod_small by lia. lia.
Qed.

(** X2. For a count of seconds up to 9223372036 in absolute value (292
    years) the "duration" tag shows exactly that many seconds: the
    multiplication by [time.Second] does not overflow. *)
Theorem valueConv_duration_exact (v : float64) :
  -9223372036 <= int64_of_float64 v <= 9223372036 ->
  valueConv v "duration" = Duration_String (int64_of_float64 v * Second).
Proof.
  intros Hv. unfold valueConv. simpl.
  rewrite wrap64_small; [reflexivity |]. unfold minInt64, maxInt64, Second. lia.
Qed.

(** X3. For a count of seconds above 9223372036, up to twice that, the
    multiplication by [time.Second] overflows [int64] and the "duration"
    tag shows a negative duration, 2^64 nanoseconds below the true one. *)
Theorem valueConv_duration_overflow (v : float64) :
  9223372036 < int64_of_float64 v <= 18446744072 ->
  valueConv v "duration" = Duration_String (int64_of_float64 v * Second - 2 ^ 64) /\
  int64_of_float64 v * Second - 2 ^ 64 < 0.
Proof.
  intros Hv. unfold valueConv. simpl.
  rewrite wrap64_above; [split; [reflexivity |] |]; unfold maxInt64, Second; lia.
Qed.

(** X4. The "timestamp" tag reads the value as seconds since the Unix
    epoch and shows that very second in [time.Local], for every count of
    seconds that [int64] seconds counted from year 1 can hold: adding the
    62135596800 seconds between year 1 and 1970 does not wrap then. *)
Theorem valueConv_timestamp_local (v : float64) :
  minInt64 <= int64_of_float64 v <= maxInt64 - 62135596800 ->
  valueConv v "timestamp" =
  Time_Format_DateTime {| instant := int64_of_float64 v * Second; location := Local |}.
Proof.
  intros Hv. unfold valueConv, time_Unix. simpl.
  rewrite wrap64_small; [do 3 f_equal; lia |]. unfold minInt64, maxInt64 in *. lia.
Qed.

(** X5. The "updown" tag answers "up" for the positive finite float whose
    value [m * 2^e] is one (written without fractions:
    [m * 2^max(e,0) = 2^max(-e,0)]) and "down" for every other float:
    zeros, infinities, NaN, negative numbers and all other values. *)
Theorem valueConv_updown (v : float64) :
  (valueConv v "updown" = "up" \/ valueConv v "updown" = "down") /\
  (valueConv v "updown" = "up" <->
   exists (m : positive) (e : Z),
     v = S754_finite false m e /\ Z.pos m * 2 ^ Z.max e 0 = 2 ^ Z.max (- e) 0).
Proof.
  unfold valueConv. simpl. split.
  - destruct (f64_is_one v); [left | right]; reflexivity.
  - split.
    + destruct v as [s | s | | s m e]; unfold f64_is_one;
        try (intros Hup; discriminate Hup).
      destruct s; [intros Hup; discriminate Hup |].
      destruct (Z.leb_spec e 0) as [He | He]; cbv [andb]; [| intros Hup; discriminate Hup].
      destruct (Z.eqb_spec (Z.pos m) (2 ^ (- e))) as [Hm | Hm]; [| intros Hup; discriminate Hup].
      intros _. exists m, e. split; [reflexivity |].
      rewrite Z.max_r, Z.max_l by lia. rewrite Hm. apply Z.mul_1_r.
    + intros (m & e & -> & Hone). unfold f64_is_one.
      destruct (Z.leb_spec e 0) as [He | He]; cbv [andb].
      * rewrite Z.max_r, Z.max_l, Z.mul_1_r in Hone by lia.
        rewrite Hone, Z.eqb_refl. reflexivity.
      * exfalso. rewrite Z.max_l, Z.max_r in Hone by lia.
        assert (2 <= 2 ^ e) by (change 2 with (2 ^ 1) at 1; apply Z.pow_le_mono_r; lia).
        change (2 ^ 0) with 1 in Hone. nia.
Qed.

End ValueFormatter.

Lemma valueConv_other_tag_witness :
  @valueConv Sample.runtime (S754_finite false 85 (-1)) "Duration" = "42.50".
Proof.
  rewrite (@valueConv_other_tag Sample.runtime); [vm_compute; reflexivity | | |]; discriminate.
Defined.

Lemma valueConv_duration_exact_witness :
  @valueConv Sample.runtime (S754_finite false 3661 0) "duration" = "1h1m1s".
Proof.
  rewrite (@valueConv_duration_exact Sample.runtime); vm_compute; [reflexivity |].
  split; discriminate.
Defined.

Lemma valueConv_duration_overflow_witness :
  @valueConv Sample.runtime (S754_finite false 9223372037 0) "duration" =
  "-2562047h47m16.709551616s".
Proof.
  destruct (@valueConv_duration_overflow Sample.runtime (S754_finite false 9223372037 0))
    as [Hshown _]; [vm_compute; split; [reflexivity | discriminate] |].
  rewrite Hshown. vm_compute. reflexivity.
Defined.

Lemma valueConv_timestamp_local_witness :
  @valueConv Sample.runtime (S754_finite false 1709200800 0) "timestamp" = "2024-02-29 17:00:00".
Proof.
  rewrite (@valueConv_timestamp_local Sample.runtime); vm_compute; [reflexivity |].
  split; discriminate.
Defined.

(** ** Delivery: logs and network answers *)

Section DeliveryAccounts.
Context {R : GoRuntime} (P : Process).

Lemma logged_deliveryEvents (msg : discordOut) (r : PostResult) :
  logged (deliveryEvents P msg r) = option_list (failureLine r).
Proof.
  unfold deliveryEvents, failureLine.
  destruct (debug P), r as [err | code b]; simpl; try destruct (400 <=? code)%Z; reflexivity.
Qed.

Lemma stdout_deliveryEvents (msg : discordOut) (r : PostResult) :
  stdout (deliveryEvents P msg r) =
  if debug P then ["Send webhook: " +:+ json_Marshal msg] else [].
Proof.
  unfold deliveryEvents.
  destruct (debug P), r as [err | code b]; simpl; try destruct (400 <=? code)%Z; reflexivity.
Qed.

Lemma logged_delivered (msgs : list discordOut) (w : World) :
  logged (events (delivered P msgs w)) =
  logged (events w) ++ omap failureLine (network w <$> seq 0 (length msgs)).
Proof.
  revert w. induction msgs as [| msg msgs IH]; intros w.
  - simpl. rewrite app_nil_r. reflexivity.
  - simpl delivered. rewrite IH. cbn [events network length].
    unfold logged at 1. rewrite omap_app. fold (logged (events w)).
    fold (logged (deliveryEvents P msg (network w 0%nat))).
    rewrite logged_deliveryEvents, <- app_assoc. f_equal.
    change (seq 0 (S (length msgs))) with (0%nat :: seq 1 (length msgs)).
    rewrite <- (fmap_S_seq 0), fmap_cons, <- list_fmap_compose. cbn [omap list_omap].
    destruct (failureLine (network w 0%nat)); reflexivity.
Qed.

Lemma stdout_delivered (msgs : list discordOut) (w : World) :
  stdout (events (delivered P msgs w)) =
  stdout (events w) ++
  (if debug P then (fun msg => "Send webhook: " +:+ json_Marshal msg) <$> msgs else []).
Proof.
  revert w. induction msgs as [| msg msgs IH]; intros w.
  - simpl. destruct (debug P); rewrite app_nil_r; reflexivity.
  - simpl delivered. rewrite IH. cbn [events].
    unfold stdout at 1. rewrite omap_app. fold (stdout (events w)).
    fold (stdout (deliveryEvents P msg (network w 0%nat))).
    rewrite stdout_deliveryEvents, <- app_assoc. destruct (debug P); reflexivity.
Qed.

Lemma network_delivered (msgs : list discordOut) (w : World) (n : nat) :
  network (delivered P msgs w) n = network w (length msgs + n)%nat.
Proof.
  revert w. induction msgs as [| msg msgs IH]; intros w; [reflexivity |].
  simpl delivered. rewrite IH. cbn [network length]. f_equal; lia.
Qed.

Lemma length_batches (content : string) (units : list discordEmbed) :
  length (batches content units) = batchCount (length units).
Proof. unfold batches. rewrite length_fmap, runs_length. reflexivity. Qed.

(** X6. After [sendWebhook] the log has grown by exactly the failure lines
    of the answers the network gave to the POSTs of the batch, in order: a
    line for every transport error and every status of 400 or more, and
    none for a status below 400. *)
Theorem sendWebhook_logs_failures (amo : alertManOut) (units : list discordEmbed) (w : World) :
  renderAlerts P (Alerts amo) [] = Ok units ->
  logged (events (snd (sendWebhook P amo w))) =
  logged (events w) ++
  omap failureLine (network w <$> seq 0 (batchCount (length units))).
Proof.
  intros Hrender. rewrite (sendWebhook_run P amo units w Hrender). cbn [snd].
  rewrite logged_delivered, length_batches. reflexivity.
Qed.

(** X7. [sendWebhook] uses one answer of the network for each message of
    the batch and no more: afterwards the network continues with the
    answer that follows them. *)
Theorem sendWebhook_uses_one_answer_each (amo : alertManOut) (units : list discordEmbed)
    (w : World) (n : nat) :
  renderAlerts P (Alerts amo) [] = Ok units ->
  network (snd (sendWebhook P amo w)) n = network w (batchCount (length units) + n)%nat /\
  length (posted (events (snd (sendWebhook P amo w)))) =
  (length (posted (events w)) + batchCount (length units))%nat.
Proof.
  intros Hrender. rewrite (sendWebhook_run P amo units w Hrender). cbn [snd].
  rewrite network_delivered, posted_delivered, length_app, length_fmap, length_batches.
  split; reflexivity.
Qed.

(** X8. When the alerts of a group render, [sendWebhook] delivers
    messages of which every one but the last holds exactly 10 units and the
    last one holds the remaining ones, at least one when the group has an
    alert: no empty message goes out for a group with alerts. *)
Theorem batches_are_full_but_the_last (amo : alertManOut) (units : list discordEmbed)
    (w : World) :
  renderAlerts P (Alerts amo) [] = Ok units ->
  let msgs := batches (header amo) units in
  sendWebhook P amo w = (Ok tt, delivered P msgs w) /\
  posted (events (snd (sendWebhook P amo w))) = posted (events w) ++ (json_Marshal <$> msgs) /\
  forall (k : nat) (msg : discordOut),
    msgs !! k = Some msg ->
    ((S k < length msgs)%nat -> length (Embeds msg) = 10%nat) /\
    (S k = length msgs -> length (Embeds msg) = (length (Alerts amo) - 10 * k)%nat) /\
    (Alerts amo <> [] -> (1 <= length (Embeds msg))%nat).
Proof.
  intros Hrender msgs.
  pose proof (sendWebhook_run P amo units w Hrender) as Hrun. fold msgs in Hrun.
  split; [exact Hrun |]. split; [rewrite Hrun; apply posted_delivered |].
  intros k msg Hk.
  assert (HK : length units = length (Alerts amo)).
  { apply renderAlerts_length in Hrender. simpl in Hrender. exact Hrender. }
  assert (Hn : length msgs = batchCount (length units)) by apply length_batches.
  assert (Hlt : (k < length msgs)%nat) by (apply lookup_lt_Some in Hk; exact Hk).
  unfold msgs, batches in Hk. rewrite list_lookup_fmap, runs_lookup in Hk by lia.
  simpl in Hk. injection Hk as <-. cbn [Embeds].
  rewrite length_take, length_drop. unfold MaxDiscordEmbed in *.
  destruct (Nat.eq_dec (length units) 0%nat) as [Hzero | Hpos].
  - rewrite Hzero in *. unfold batchCount in Hn. simpl in Hn.
    split; [lia |]. split; [lia |]. intros Hsome.
    destruct (Alerts amo); [contradiction | discriminate HK].
  - destruct (batchCount_bounds (length units)) as [Hup Hlow]; [lia |].
    unfold MaxDiscordEmbed in *. lia.
Qed.

Lemma renderAlerts_cases (alerts : list alertManAlert) :
  (exists units, renderAlerts P alerts [] = Ok units /\
                 (alerts = [] \/ exists loc, fst (time_LoadLocation (os_Getenv P "TZ")) = Some loc)) \/
  (alerts <> [] /\ fst (time_LoadLocation (os_Getenv P "TZ")) = None /\
   renderAlerts P alerts [] = Panic "time: missing Location in call to Time.In").
Proof.
  destruct alerts as [| alert alerts].
  - left. exists []. split; [reflexivity | left; reflexivity].
  - destruct (fst (time_LoadLocation (os_Getenv P "TZ"))) as [loc |] eqn:Hloc.
    + left. destruct (renderAlerts_in P (alert :: alerts) [] loc Hloc) as [units Hunits].
      exists units. split; [exact Hunits | right; exists loc; reflexivity].
    + right. split; [discriminate |]. split; [reflexivity |].
      apply renderAlerts_nil; [discriminate | exact Hloc].
Qed.

Lemma sendWebhook_panics (amo : alertManOut) (msg : string) (w : World) :
  renderAlerts P (Alerts amo) [] = Panic msg ->
  sendWebhook P amo w = (Panic msg, w).
Proof. intros Hpanic. unfold sendWebhook. rewrite Hpanic. reflexivity. Qed.

(** X9. A group is delivered entirely or not at all. Either all its alerts
    render (there is no alert, or the name in [TZ] resolves) and
    [sendWebhook] returns after delivering the batches; or there is an alert
    and the name does not resolve, and [sendWebhook] panics leaving the
    world as it was: nothing is POSTed and nothing is logged. *)
Theorem sendWebhook_all_or_nothing (amo : alertManOut) (w : World) :
  (exists units : list discordEmbed,
     renderAlerts P (Alerts amo) [] = Ok units /\
     (Alerts amo = [] \/ exists loc, fst (time_LoadLocation (os_Getenv P "TZ")) = Some loc) /\
     sendWebhook P amo w = (Ok tt, delivered P (batches (header amo) units) w)) \/
  (Alerts amo <> [] /\
   fst (time_LoadLocation (os_Getenv P "TZ")) = None /\
   sendWebhook P amo w = (Panic "time: missing Location in call to Time.In", w)).
Proof.
  destruct (renderAlerts_cases (Alerts amo)) as [(units & Hunits & Hwhy) | (Hne & Hloc & Hpanic)].
  - left. exists units. split; [exact Hunits |]. split; [exact Hwhy |].
    apply sendWebhook_run, Hunits.
  - right. split; [exact Hne |]. split; [exact Hloc |].
    apply sendWebhook_panics, Hpanic.
Qed.

(** X10. For one to ten embeds the bulk-send loop would send the very
    message the other branch sends; for no embed it would send nothing.
    So the branch for at most [MaxDiscordEmbed] embeds changes the outcome
    for the empty group only, which gets its one message from it. *)
Theorem bulkSend_up_to_ten (DO : discordOut) (embeds : list discordEmbed) (w : World) :
  (length embeds <= MaxDiscordEmbed)%nat ->
  bulkSend P DO embeds 0 w =
  match embeds with
  | [] => (Ok tt, w)
  | _ => fireMessageOut P {| Content := Content DO; Embeds := embeds |} w
  end.
Proof.
  intros Hlen. destruct embeds as [| embed embeds].
  - rewrite (bulkSend_run P DO [] 0 0 w); [reflexivity | simpl; lia | right; reflexivity].
  - rewrite (bulkSend_run P DO (embed :: embeds) 1 0 w).
    + rewrite fireMessageOut_run. cbn [runs fmap list_fmap].
      rewrite drop_0, take_ge by exact Hlen. reflexivity.
    + unfold MaxDiscordEmbed in *. lia.
    + left. simpl. lia.
Qed.

(** X13. A group without alerts always gets its one message, with the
    header and no embed, whatever [TZ] holds: nothing is rendered, so the
    time zone is never looked up. *)
Theorem sendWebhook_empty_group (amo : alertManOut) (w : World) :
  Alerts amo = [] ->
  sendWebhook P amo w =
  (Ok tt, delivered P [ {| Content := header amo; Embeds := [] |} ] w) /\
  posted (events (snd (sendWebhook P amo w))) =
  posted (events w) ++ [json_Marshal {| Content := header amo; Embeds := [] |}].
Proof.
  intros Hempty.
  assert (Hrun : sendWebhook P amo w =
                 (Ok tt, delivered P [ {| Content := header amo; Embeds := [] |} ] w)).
  { rewrite (sendWebhook_run P amo [] w) by (rewrite Hempty; reflexivity). reflexivity. }
  split; [exact Hrun |]. rewrite Hrun. cbn [snd]. rewrite posted_delivered. reflexivity.
Qed.

End DeliveryAccounts.

(** ** Rendered units *)

Section RenderedUnits.
Context {R : GoRuntime} (P : Process).

Lemma alertStatus_palette (alert : alertManAlert) :
  snd (alertStatus alert) ∈ [ColorRed; ColorOrange; ColorGreen; ColorGrey; ColorBlue].
Proof.
  unfold alertStatus, getSeverityColor.
  destruct (String.eqb (Status alert) "firing").
  - cbn [snd]. destruct (Labels alert !! "severity") as [s |].
    + destruct (String.eqb s "debug"); [set_solver |].
      destruct (String.eqb s "info"); [set_solver |].
      destruct (String.eqb s "warning"); [set_solver |].
      destruct (String.eqb s "critical"); set_solver.
    + destruct (String.eqb (Status alert) "debug"); [set_solver |].
      destruct (String.eqb (Status alert) "info"); [set_solver |].
      destruct (String.eqb (Status alert) "warning"); [set_solver |].
      destruct (String.eqb (Status alert) "critical"); set_solver.
  - destruct (String.eqb (Status alert) "resolved"); cbn [snd]; set_solver.
Qed.

(** X11. Every rendered unit has one of the five colours red, orange,
    green, grey and blue, has no fields, and has a title made of the
    upper-cased display status in brackets, a space and the summary. *)
Theorem rendered_unit_shape (alert : alertManAlert) (unit : discordEmbed) :
  renderAlert P alert = Ok unit ->
  Color unit ∈ [ColorRed; ColorOrange; ColorGreen; ColorGrey; ColorBlue] /\
  Fields unit = [] /\
  Title unit = "[" +:+ strings_ToUpper (fst (alertStatus alert)) +:+ "] " +:+
               Annotations_Summary alert.
Proof.
  intros Hunit.
  destruct (fst (time_LoadLocation (os_Getenv P "TZ"))) as [loc |] eqn:Hloc.
  - rewrite (renderAlert_in P alert loc Hloc) in Hunit. injection Hunit as <-.
    cbn [Color Fields Title]. split; [apply alertStatus_palette |]. split; reflexivity.
  - rewrite (renderAlert_nil P alert Hloc) in Hunit. discriminate.
Qed.

(** X12. The description block has one bullet for each line of the
    description: one more than the description has newlines, none of them
    with a newline inside, and the bullets' texts joined by newlines are
    the description again. *)
Theorem description_is_bulleted_by_line (alert : alertManAlert) :
  exists pieces : list string,
    alertDescription alert = (fun piece => ": - " +:+ piece) <$> pieces /\
    length pieces = S (newlines (Annotations_Description alert)) /\
    Forall (fun piece => newlines piece = 0%nat) pieces /\
    strings_Join pieces nl = Annotations_Description alert.
Proof.
  exists (strings_Split (Annotations_Description alert) "010"%char).
  split; [reflexivity |]. split; [apply strings_Split_length |].
  split; [apply strings_Split_pieces | apply strings_Join_Split].
Qed.

End RenderedUnits.

(** ** The Ingress Handler, the other paths *)

Section IngressPaths.
Context {R : GoRuntime} (P : Process).

Lemma sendRawPromAlertWarn_run (w : World) :
  sendRawPromAlertWarn P w =
  (Ok tt,
   {| events := events w ++
                [EvLog "/!\ -- You have misconfigured this software -- /!\";
                 EvLog "--- --                                      -- ---";
                 EvLog badString;
                 EvPost (whURL P) "application/json" (json_Marshal misconfigurationWarning)];
      network := fun n => network w (S n) |}).
Proof.
  unfold sendRawPromAlertWarn, mbind, M_bind, mret, M_ret, log_Print, emit, http_Post.
  cbn [events network]. rewrite <- !app_assoc. reflexivity.
Qed.

(** X14. A body that does not decode and has the foreign shape gets the
    fixed warning: the handler logs its three lines, POSTs the warning
    message once, and returns, so the caller gets status 200. Whatever the
    network answers to that POST, nothing more is logged. *)
Theorem foreign_shape_is_warned (r : Request) (b : string) (w : World) :
  Body r = ReadOk b ->
  json_Unmarshal b = None ->
  isRawPromAlert b = true ->
  serveHTTP P r w =
  (Replied 200 "",
   {| events := events (received P r b w) ++
                [EvLog "/!\ -- You have misconfigured this software -- /!\";
                 EvLog "--- --                                      -- ---";
                 EvLog badString;
                 EvPost (whURL P) "application/json" (json_Marshal misconfigurationWarning)];
      network := fun n => network w (S n) |}).
Proof.
  intros Hbody Hjson Hraw. unfold serveHTTP.
  rewrite (handler_decodes P r b w Hbody), Hjson, Hraw, sendRawPromAlertWarn_run.
  reflexivity.
Qed.

Lemma read_failure_aborts_run (r : Request) (err : string) (w : World) :
  Body r = ReadError err ->
  handler P r w =
  (Panic err,
   {| events := events w ++ [EvLog (Host r +:+ " - [" +:+ Method r +:+ "] " +:+ URL r)];
      network := network w |}).
Proof. intros Hbody. unfold handler. rewrite Hbody. reflexivity. Qed.

(** X15. When the request body cannot be read the handler panics with the
    read error right after logging the request line: the caller gets no
    reply and nothing is delivered. *)
Theorem read_failure_aborts (r : Request) (err : string) (w : World) :
  Body r = ReadError err ->
  handler P r w =
  (Panic err,
   {| events := events w ++ [EvLog (Host r +:+ " - [" +:+ Method r +:+ "] " +:+ URL r)];
      network := network w |}) /\
  fst (serveHTTP P r w) = Aborted /\
  posted (events (snd (serveHTTP P r w))) = posted (events w).
Proof.
  intros Hbody.
  pose proof (read_failure_aborts_run r err w Hbody) as Hrun.
  split; [exact Hrun |]. unfold serveHTTP. rewrite Hrun. cbn [fst snd events].
  split; [reflexivity |]. rewrite posted_app. cbn. apply app_nil_r.
Qed.

Lemma stdout_app (evs1 evs2 : list Event) : stdout (evs1 ++ evs2) = stdout evs1 ++ stdout evs2.
Proof. unfold stdout. apply omap_app. Qed.

Lemma stdout_received (r : Request) (b : string) (w : World) :
  stdout (events (received P r b w)) =
  stdout (events w) ++ (if debug P then ["Receive webhook: " +:+ b] else []).
Proof.
  unfold received. cbn [events]. rewrite !stdout_app. destruct (debug P); reflexivity.
Qed.

(** Standard output after a request whose body was read. *)
Lemma stdout_serveHTTP (r : Request) (b : string) (w : World) :
  Body r = ReadOk b ->
  stdout (events (snd (serveHTTP P r w))) =
  stdout (events w) ++
  (if debug P then
     ("Receive webhook: " +:+ b) ::
     match json_Unmarshal b with
     | Some amo =>
         match renderAlerts P (Alerts amo) [] with
         | Ok units =>
             (fun msg => "Send webhook: " +:+ json_Marshal msg) <$> batches (header amo) units
         | Panic _ => []
         end
     | None => []
     end
   else []).
Proof.
  intros Hbody. unfold serveHTTP. rewrite (handler_decodes P r b w Hbody).
  destruct (json_Unmarshal b) as [amo |].
  - destruct (renderAlerts P (Alerts amo) []) as [units | msg] eqn:Hrender.
    + rewrite (sendWebhook_run P amo units _ Hrender). cbn [snd].
      rewrite stdout_delivered, stdout_received, <- app_assoc.
      destruct (debug P); reflexivity.
    + rewrite (sendWebhook_panics P amo msg _ Hrender). cbn [snd].
      rewrite stdout_received. destruct (debug P); reflexivity.
  - destruct (isRawPromAlert b).
    + rewrite sendRawPromAlertWarn_run. cbn [snd events].
      rewrite stdout_app, stdout_received, <- app_assoc. cbn.
      destruct (debug P); rewrite ?app_nil_r; reflexivity.
    + destruct (Nat.ltb_spec 1024 (String.length b)) as [Hlong | Hshort].
      * unfold mbind, M_bind, lift, slice_to.
        destruct (Nat.leb_spec 1023 (String.length b)) as [_ | Hlt]; [| lia].
        unfold log_Print, emit. cbn [snd events].
        rewrite stdout_app, stdout_received. cbn [stdout omap list_omap].
        destruct (debug P); rewrite ?app_nil_r; reflexivity.
      * unfold log_Print, emit. cbn [snd events].
        rewrite stdout_app, stdout_received. cbn [stdout omap list_omap].
        destruct (debug P); rewrite ?app_nil_r; reflexivity.
Qed.

(** X16. With the debug flag off, serving a request writes nothing to
    standard output, whatever the request and the answers of the network
    are. *)
Theorem quiet_without_debug (r : Request) (w : World) :
  debug P = false ->
  stdout (events (snd (serveHTTP P r w))) = stdout (events w).
Proof.
  intros Hdebug. destruct (Body r) as [b | err] eqn:Hbody.
  - rewrite (stdout_serveHTTP r b w Hbody), Hdebug. apply app_nil_r.
  - unfold serveHTTP.
    rewrite (read_failure_aborts_run r err w Hbody). cbn [snd events]. rewrite stdout_app. cbn. apply app_nil_r.
Qed.

(** X17. With the debug flag on, serving a request that decodes to a group
    whose alerts render writes to standard output the received body and
    then, in order, the JSON of each message of the batch. *)
Theorem debug_echoes_traffic (r : Request) (b : string) (amo : alertManOut)
    (units : list discordEmbed) (w : World) :
  debug P = true ->
  Body r = ReadOk b ->
  json_Unmarshal b = Some amo ->
  renderAlerts P (Alerts amo) [] = Ok units ->
  stdout (events (snd (serveHTTP P r w))) =
  stdout (events w) ++
  ("Receive webhook: " +:+ b) ::
  ((fun msg => "Send webhook: " +:+ json_Marshal msg) <$> batches (header amo) units).
Proof.
  intros Hdebug Hbody Hjson Hrender.
  rewrite (stdout_serveHTTP r b w Hbody), Hdebug, Hjson, Hrender. reflexivity.
Qed.

End IngressPaths.

(** ** The log line of an unparseable body *)

Section UnparseableLog.
Context {R : GoRuntime} (P : Process).

Lemma append_cons (c : ascii) (s t : string) : String c s +:+ t = String c (s +:+ t).
Proof. reflexivity. Qed.

Lemma length_append (s t : string) :
  String.length (s +:+ t) = (String.length s + String.length t)%nat.
Proof.
  induction s as [| c s IH]; [reflexivity |].
  rewrite append_cons. cbn [String.length]. rewrite IH. reflexivity.
Qed.

Lemma length_substring_0 (n : nat) (s : string) :
  (n <= String.length s)%nat -> String.length (String.substring 0 n s) = n.
Proof.
  revert s. induction n as [| n IH]; intros s Hn.
  - destruct s; reflexivity.
  - destruct s as [| c s]; cbn [String.length] in Hn; [lia |].
    cbn [String.substring String.length]. rewrite IH by lia. reflexivity.
Qed.

Lemma prefix_append (p s : string) : String.prefix p (p +:+ s) = true.
Proof.
  induction p as [| c p IH]; [destruct s; reflexivity |].
  rewrite append_cons. cbn [String.prefix].
  destruct (ascii_dec c c); [exact IH | contradiction].
Qed.

Lemma logged_app (evs1 evs2 : list Event) : logged (evs1 ++ evs2) = logged evs1 ++ logged evs2.
Proof. unfold logged. apply omap_app. Qed.

Lemma logged_received (r : Request) (b : string) (w : World) :
  logged (events (received P r b w)) =
  logged (events w) ++ [Host r +:+ " - [" +:+ Method r +:+ "] " +:+ URL r].
Proof.
  unfold received. cbn [events]. rewrite !logged_app. destruct (debug P); reflexivity.
Qed.

(** X18. For a body that does not decode and has not the foreign shape the
    handler adds two lines to the log, the request line and a line that
    starts with "Failed to unpack inbound alert request - "; that line is
    never longer than 1067 bytes (the 41 bytes of its start and at most
    1026 more), however long the body is, and nothing is POSTed. *)
Theorem unparseable_log_line_is_bounded (r : Request) (b : string) (w : World) :
  Body r = ReadOk b ->
  json_Unmarshal b = None ->
  isRawPromAlert b = false ->
  exists line : string,
    logged (events (snd (handler P r w))) =
    logged (events w) ++ [Host r +:+ " - [" +:+ Method r +:+ "] " +:+ URL r; line] /\
    String.prefix "Failed to unpack inbound alert request - " line = true /\
    (String.length line <= 1067)%nat /\
    ((String.length b <= 1024)%nat ->
     line = "Failed to unpack inbound alert request - " +:+ b) /\
    posted (events (snd (handler P r w))) = posted (events w).
Proof.
  intros Hbody Hjson Hraw.
  rewrite (handler_unparseable P r b w Hbody Hjson Hraw). cbn [snd events].
  eexists. split.
  { rewrite logged_app, logged_received, <- app_assoc. reflexivity. }
  split; [apply prefix_append |].
  split.
  { rewrite length_append. change (String.length "Failed to unpack inbound alert request - ")
      with 41%nat.
    destruct (Nat.ltb_spec 1024 (String.length b)) as [Hlong | Hshort]; [| lia].
    rewrite length_append, length_substring_0 by lia. cbn [String.length]. lia. }
  split.
  { intros Hshort. destruct (Nat.ltb_spec 1024 (String.length b)) as [Hlong | _]; [lia |].
    reflexivity. }
  rewrite posted_app. unfold received. cbn [events]. rewrite !posted_app.
  destruct (debug P); cbn; rewrite ?app_nil_r; reflexivity.
Qed.

End UnparseableLog.

(** ** Start-up *)

Section StartupChecks.
Variable url_Parse_fails : string -> bool.

Lemma strip_append (p s : string) : strip p (p +:+ s) = Some s.
Proof.
  induction p as [| c p IH]; [destruct s; reflexivity |].
  rewrite append_cons. cbn [strip]. rewrite Ascii.eqb_refl. exact IH.
Qed.

Lemma strip_more (p s rest post : string) :
  strip p s = Some rest -> strip p (s +:+ post) = Some (rest +:+ post).
Proof.
  revert s. induction p as [| a p IH]; intros s Hs.
  - destruct s; injection Hs as <-; reflexivity.
  - destruct s as [| b s]; [discriminate |]. rewrite append_cons. cbn [strip] in *.
    destruct (Ascii.eqb a b); [apply IH, Hs | discriminate].
Qed.

Lemma strip_length (p s rest : string) :
  strip p s = Some rest -> String.length s = (String.length p + String.length rest)%nat.
Proof.
  revert s. induction p as [| a p IH]; intros s Hs.
  - destruct s; injection Hs as <-; reflexivity.
  - destruct s as [| b s]; [discriminate |]. cbn [strip] in Hs.
    destruct (Ascii.eqb a b); [| discriminate]. cbn [String.length]. rewrite (IH s Hs). reflexivity.
Qed.

Lemma leadingDigits_all (id rest : string) :
  allDigits id = true -> leadingDigits rest = 0%nat ->
  leadingDigits (id +:+ rest) = String.length id.
Proof.
  intros Hid Hrest. induction id as [| c id IH]; [exact Hrest |].
  rewrite append_cons. cbn [allDigits leadingDigits String.length] in *.
  apply andb_true_iff in Hid as [Hc Hid]. rewrite Hc, IH by exact Hid. reflexivity.
Qed.

Lemma dropBytes_append (s t : string) : dropBytes (String.length s) (s +:+ t) = t.
Proof.
  induction s as [| c s IH]; [destruct t; reflexivity |].
  rewrite append_cons. exact IH.
Qed.

Lemma dropBytes_more (n : nat) (s post : string) (c : ascii) (rest : string) :
  dropBytes n s = String c rest -> dropBytes n (s +:+ post) = String c (rest +:+ post).
Proof.
  revert s. induction n as [| n IH]; intros s Hs.
  - cbn [dropBytes] in *. rewrite Hs. reflexivity.
  - destruct s as [| a s]; [discriminate |]. rewrite append_cons. cbn [dropBytes] in *.
    apply IH, Hs.
Qed.

Lemma dropBytes_length (n : nat) (s : string) :
  String.length (dropBytes n s) = (String.length s - n)%nat.
Proof.
  revert s. induction n as [| n IH]; intros s; [cbn; lia |].
  destruct s as [| a s]; [reflexivity |]. cbn [dropBytes String.length]. rewrite IH. lia.
Qed.

Lemma leadingDigits_more (s post : string) (c : ascii) (rest : string) :
  dropBytes (leadingDigits s) s = String c rest -> isDigit c = false ->
  leadingDigits (s +:+ post) = leadingDigits s.
Proof.
  induction s as [| a s IH]; intros Hdrop Hc; [discriminate |].
  rewrite append_cons. cbn [leadingDigits] in *.
  destruct (isDigit a); [| reflexivity].
  cbn [dropBytes] in Hdrop. rewrite IH by assumption. reflexivity.
Qed.

Lemma runeWidth_ascii (c : ascii) (s : string) :
  byte_lt c 128 = true -> runeWidth (String c s) = 1%nat.
Proof.
  unfold byte_lt, runeWidth. intros Hc. apply N.ltb_lt in Hc. cbn [String.get].
  destruct ((194 <=? N_of_ascii c)%N && (N_of_ascii c <=? 223)%N) eqn:H2;
    [apply andb_true_iff in H2 as [H2 _]; apply N.leb_le in H2; lia |].
  destruct ((224 <=? N_of_ascii c)%N && (N_of_ascii c <=? 239)%N) eqn:H3;
    [apply andb_true_iff in H3 as [H3 _]; apply N.leb_le in H3; lia |].
  destruct ((240 <=? N_of_ascii c)%N && (N_of_ascii c <=? 244)%N) eqn:H4;
    [apply andb_true_iff in H4 as [H4 _]; apply N.leb_le in H4; lia |].
  reflexivity.
Qed.

Lemma runeWidth_more (a b c d : ascii) (s post : string) :
  runeWidth (String a (String b (String c (String d s))) +:+ post) =
  runeWidth (String a (String b (String c (String d s)))).
Proof.
  rewrite !append_cons. unfold runeWidth. cbn [String.get String.length].
  destruct ((194 <=? N_of_ascii a)%N && (N_of_ascii a <=? 223)%N); [reflexivity |].
  destruct ((224 <=? N_of_ascii a)%N && (N_of_ascii a <=? 239)%N); [reflexivity |].
  destruct ((240 <=? N_of_ascii a)%N && (N_of_ascii a <=? 244)%N); reflexivity.
Qed.

Lemma runeWidth_bounds (s : string) : (1 <= runeWidth s <= 4)%nat.
Proof.
  unfold runeWidth.
  repeat match goal with
         | |- context [if ?b then _ else _] => destruct b
         end; lia.
Qed.

Lemma matchIdToken_inv (s : string) :
  matchIdToken s = true ->
  ((leadingDigits s =? 18) || (leadingDigits s =? 19))%nat = true /\
  exists (c : ascii) (rest : string),
    dropBytes (leadingDigits s) s = String "/" (String c rest) /\ isTokenByte c = true.
Proof.
  unfold matchIdToken. intros Hs. apply andb_true_iff in Hs as [Hcount Htoken].
  split; [exact Hcount |].
  destruct (dropBytes (leadingDigits s) s) as [| slash tail]; [discriminate |].
  destruct tail as [| c rest].
  - destruct slash as [[] [] [] [] [] [] [] []]; discriminate.
  - destruct slash as [[] [] [] [] [] [] [] []]; try discriminate.
    exists c, rest. split; [reflexivity | exact Htoken].
Qed.

Lemma matchIdToken_more (s post : string) :
  matchIdToken s = true -> matchIdToken (s +:+ post) = true.
Proof.
  intros Hs. destruct (matchIdToken_inv s Hs) as (Hcount & c & rest & Hdrop & Htoken).
  unfold matchIdToken.
  rewrite (leadingDigits_more s post _ _ Hdrop) by reflexivity.
  rewrite Hcount. rewrite (dropBytes_more _ _ post _ _ Hdrop). rewrite append_cons.
  exact Htoken.
Qed.

Lemma matchHost_more (s post : string) :
  matchHost s = true -> matchHost (s +:+ post) = true.
Proof.
  unfold matchHost, anyRune. intros Hs.
  destruct s as [| a s]; [discriminate |].
  destruct (Ascii.eqb a "010"%char) eqn:Ha; [discriminate |].
  destruct (strip "com/api/webhooks/" (dropBytes (runeWidth (String a s)) (String a s)))
    as [rest |] eqn:Hstrip; [| discriminate].
  pose proof (strip_length _ _ _ Hstrip) as Hlen.
  rewrite dropBytes_length in Hlen. cbn [String.length] in Hlen.
  pose proof (runeWidth_bounds (String a s)) as Hwidth.
  destruct s as [| b [| c [| d s]]]; cbn [String.length] in Hlen; try lia.
  rewrite append_cons, Ha. rewrite <- append_cons, runeWidth_more.
  destruct (dropBytes (runeWidth (String a (String b (String c (String d s)))))
              (String a (String b (String c (String d s))))) as [| x rest'] eqn:Hdrop;
    [discriminate |].
  rewrite (dropBytes_more _ _ post _ _ Hdrop), <- append_cons.
  rewrite (strip_more _ _ _ post Hstrip). apply matchIdToken_more, Hs.
Qed.

Lemma matchHere_more (s post : string) :
  matchHere s = true -> matchHere (s +:+ post) = true.
Proof.
  unfold matchHere. intros Hs.
  destruct (strip "https://discord" s) as [rest |] eqn:Hstrip; [| discriminate].
  rewrite (strip_more _ _ _ post Hstrip).
  apply orb_true_iff in Hs as [Hs | Hs].
  - rewrite (matchHost_more _ post Hs). reflexivity.
  - destruct (strip "app" rest) as [rest' |] eqn:Happ; [| discriminate].
    rewrite (strip_more _ _ _ post Happ), (matchHost_more _ post Hs). apply orb_true_r.
Qed.

Lemma webhookRE_Match_suffix (s post : string) :
  webhookRE_Match s = true -> webhookRE_Match (s +:+ post) = true.
Proof.
  induction s as [| c s IH]; intros Hs.
  - cbn in Hs. discriminate.
  - cbn [webhookRE_Match] in Hs. apply orb_true_iff in Hs as [Hs | Hs].
    + destruct (String c s +:+ post) eqn:Happ; cbn [webhookRE_Match];
        rewrite <- Happ, (matchHere_more _ post Hs); reflexivity.
    + rewrite append_cons. cbn [webhookRE_Match]. rewrite (IH Hs). apply orb_true_r.
Qed.

Lemma webhookRE_Match_prefix (pre s : string) :
  webhookRE_Match s = true -> webhookRE_Match (pre +:+ s) = true.
Proof.
  intros Hs. induction pre as [| c pre IH]; [destruct s; exact Hs |].
  rewrite append_cons. cbn [webhookRE_Match]. rewrite IH. apply orb_true_r.
Qed.

(** X19. A webhook URL of the shape
    [https://discord<sep>com/api/webhooks/<id>/<token>], also with
    [discordapp], passes the check of [checkWhURL] without a warning when
    the id has 18 or 19 digits and the token starts with a letter, a digit,
    [_] or [-]; the separator may be the dot or any other ASCII byte but
    the newline, since the dot of the expression is not escaped. *)
Theorem checkWhURL_accepts_webhook_urls (host : string) (sep c : ascii) (id rest : string) :
  host = "discord" \/ host = "discordapp" ->
  byte_lt sep 128 = true -> sep <> "010"%char ->
  allDigits id = true ->
  String.length id = 18%nat \/ String.length id = 19%nat ->
  isTokenByte c = true ->
  let whURL := "https://" +:+ host +:+ String sep ("com/api/webhooks/" +:+ id +:+ "/" +:+ String c rest) in
  webhookRE_Match whURL = true /\
  (url_Parse_fails whURL = false -> checkWhURL url_Parse_fails whURL = Continue tt []).
Proof.
  intros Hhost Hsep Hnl Hid Hlen Hc whURL.
  assert (Htoken : matchIdToken (id +:+ "/" +:+ String c rest) = true).
  { unfold matchIdToken. rewrite leadingDigits_all by (exact Hid || reflexivity).
    rewrite dropBytes_append. change ("/" +:+ String c rest) with (String "/" (String c rest)).
    cbv beta iota. rewrite Hc, andb_true_r. destruct Hlen as [-> | ->]; reflexivity. }
  assert (Hhostpart : matchHost (String sep ("com/api/webhooks/" +:+ id +:+ "/" +:+ String c rest)) = true).
  { unfold matchHost, anyRune. apply Ascii.eqb_neq in Hnl. rewrite Hnl.
    rewrite (runeWidth_ascii sep _ Hsep). cbn [dropBytes].
    rewrite strip_append. exact Htoken. }
  assert (Hmatch : webhookRE_Match whURL = true).
  { assert (Hhere : matchHere whURL = true).
    { unfold matchHere, whURL. destruct Hhost as [-> | ->].
      - change ("https://" +:+ "discord" +:+ ?x) with ("https://discord" +:+ x).
        rewrite strip_append, Hhostpart. reflexivity.
      - change ("https://" +:+ "discordapp" +:+ ?x) with ("https://discord" +:+ "app" +:+ x).
        rewrite strip_append, strip_append, Hhostpart. apply orb_true_r. }
    destruct whURL; cbn [webhookRE_Match]; rewrite Hhere; reflexivity. }
  split; [exact Hmatch |].
  intros Hparse. unfold checkWhURL. rewrite Hparse, Hmatch.
  destruct (String.eqb_spec whURL "") as [Hempty | _]; [| reflexivity].
  unfold whURL in Hempty. destruct Hhost as [-> | ->]; discriminate Hempty.
Qed.

(** X20. The expression of [checkWhURL] is not anchored: a URL that passes
    still passes with any text put before it and any text put after it. *)
Theorem checkWhURL_pattern_is_unanchored (pre s post : string) :
  webhookRE_Match s = true -> webhookRE_Match (pre +:+ s +:+ post) = true.
Proof.
  intros Hs. apply webhookRE_Match_prefix, webhookRE_Match_suffix, Hs.
Qed.

(** X21. [main] ends the process before listening exactly when the webhook
    URL is empty or does not parse; a URL that only fails the pattern is
    logged as a warning and the server starts. When it starts, it listens
    on the given address, or on 127.0.0.1:9094 when none is given, never on
    an empty one, and this is the last line logged. *)
Theorem main_starts_listening (whURL listenAddress : string) :
  ((exists log, main url_Parse_fails whURL listenAddress = Fatal log) <->
   whURL = "" \/ url_Parse_fails whURL = true) /\
  (forall (address : string) (log : list string),
     main url_Parse_fails whURL listenAddress = Continue address log ->
     address <> "" /\
     address = (if String.eqb listenAddress "" then "127.0.0.1:9094" else listenAddress) /\
     log = (if webhookRE_Match whURL then []
            else ["The Discord WebHook URL doesn't seem to be valid."]) ++
           ["Listening on: " +:+ address]).
Proof.
  unfold main, checkWhURL. split.
  - destruct (String.eqb_spec whURL "") as [Hempty | Hne].
    + split; [intros _; left; exact Hempty | intros _; eexists; reflexivity].
    + destruct (url_Parse_fails whURL) eqn:Hparse.
      * split; [intros _; right; reflexivity | intros _; eexists; reflexivity].
      * split.
        -- intros [log Hfatal]. destruct (webhookRE_Match whURL); discriminate Hfatal.
        -- intros [Hempty | Hfails]; [contradiction | discriminate].
  - intros address log.
    destruct (String.eqb whURL ""); [discriminate |].
    destruct (url_Parse_fails whURL); [discriminate |].
    destruct (webhookRE_Match whURL); cbn [negb]; intros Hrun; injection Hrun as <- <-;
      (split; [| split; reflexivity]);
      destruct (String.eqb_spec listenAddress "") as [_ | Hne]; (discriminate || exact Hne).
Qed.

End StartupChecks.

(** ** The revision before batching *)

Section LegacyRevision.
Context {R : GoRuntime} (P : Process).

Lemma legacy_embeds (alerts : list alertManAlert) (DO : discordOut) :
  fold_left (fun DO alert => {| Content := Content DO;
                                Embeds := Embeds DO ++ [Legacy.renderAlert alert] |})
            alerts DO =
  {| Content := Content DO; Embeds := Embeds DO ++ (Legacy.renderAlert <$> alerts) |}.
Proof.
  revert DO. induction alerts as [| alert alerts IH]; intros DO.
  - cbn. rewrite app_nil_r. destruct DO; reflexivity.
  - cbn [fold_left]. rewrite IH. cbn [Content Embeds fmap list_fmap].
    rewrite <- app_assoc. reflexivity.
Qed.

(** X22. The earlier [sendWebhook] never panics and does not batch: for
    every group, time-zone setting and network it returns after one POST
    of a single message that holds one embed for each alert, in order,
    however many there are; and it logs nothing, also when the POST
    fails. *)
Theorem legacy_sendWebhook_posts_once (amo : alertManOut) (w : World) :
  let msg := {| Content := "=== Alert: " +:+ Receiver amo +:+ " - " +:+
                           GroupLabels_Alertname amo +:+ " ===";
                Embeds := Legacy.renderAlert <$> Alerts amo |} in
  Legacy.sendWebhook P amo w =
  (Ok tt,
   {| events := events w ++
                (if debug P then [EvStdout ("Send webhook: " +:+ json_Marshal msg)] else []) ++
                [EvPost (whURL P) "application/json" (json_Marshal msg)];
      network := fun n => network w (S n) |}) /\
  length (Embeds msg) = length (Alerts amo) /\
  logged (events (snd (Legacy.sendWebhook P amo w))) = logged (events w).
Proof.
  intros msg.
  assert (Hrun : Legacy.sendWebhook P amo w =
                 (Ok tt,
                  {| events := events w ++
                               (if debug P
                                then [EvStdout ("Send webhook: " +:+ json_Marshal msg)]
                                else []) ++
                               [EvPost (whURL P) "application/json" (json_Marshal msg)];
                     network := fun n => network w (S n) |})).
  { unfold Legacy.sendWebhook. rewrite legacy_embeds. cbn [Content Embeds app].
    fold msg. unfold mbind, M_bind, mret, M_ret, fmt_Println, emit, http_Post.
    destruct (debug P); cbn [events network]; rewrite <- ?app_assoc; reflexivity. }
  split; [exact Hrun |]. split; [apply length_fmap |].
  rewrite Hrun. cbn [snd events]. unfold logged. rewrite !omap_app.
  destruct (debug P); cbn; rewrite ?app_nil_r; reflexivity.
Qed.

Lemma legacy_label_lines (kvs : list (string * string)) (labels : list string) :
  fold_left (fun labels kv => labels ++ [": - **_" +:+ fst kv +:+ ":_** " +:+ snd kv])
            kvs labels =
  labels ++ (labelLine <$> kvs).
Proof.
  revert labels. induction kvs as [| kv kvs IH]; intros labels; cbn [fold_left].
  - rewrite app_nil_r. reflexivity.
  - rewrite IH, <- app_assoc. reflexivity.
Qed.

(** X23. The earlier revision renders every label, the keys that start
    with "metrics_" and the key "value" included: the label block has one
    line for each label of the alert and no value line. *)
Theorem legacy_renders_every_label `{!GoRuntimeLaws R} (alert : alertManAlert) :
  Legacy.alertLabels alert = labelLine <$> mapRange (Labels alert) /\
  Legacy.alertLabels alert ≡ₚ labelLine <$> map_to_list (Labels alert) /\
  length (Legacy.alertLabels alert) = size (Labels alert).
Proof.
  assert (Hlines : Legacy.alertLabels alert = labelLine <$> mapRange (Labels alert)).
  { unfold Legacy.alertLabels. rewrite legacy_label_lines. reflexivity. }
  split; [exact Hlines |]. rewrite Hlines.
  pose proof (mapRange_perm (Labels alert)) as Hperm.
  split; [rewrite Hperm; reflexivity |].
  rewrite length_fmap, Hperm. apply length_map_to_list.
Qed.

(** X24. In the earlier revision a unit shows the description or the
    duration block, never both: after the event-time line and the labels
    block comes, for a display status other than "normal", the separator
    and the description block and nothing else; for the status "normal"
    the separator and the duration block when the end is after the start;
    and nothing otherwise. *)
Theorem legacy_body_sections (alert : alertManAlert) :
  let status := fst (alertStatus alert) in
  let startAt := fst (time_Parse_RFC3339 (StartsAt alert)) in
  let endAt := fst (time_Parse_RFC3339 (EndsAt alert)) in
  let ended := (instant startAt <? instant endAt)%Z in
  Color (Legacy.renderAlert alert) = snd (alertStatus alert) /\
  Description (Legacy.renderAlert alert) =
  ("**⏰ Event Time:** " +:+ Time_Format_DateTime (if ended then endAt else startAt)) +:+ nl +:+
  ("**🏷️ Alert labels:**" +:+ nl +:+ strings_Join (Legacy.alertLabels alert) nl) +:+
  (if negb (String.eqb status "normal") then
     nl +:+ "------" +:+ nl +:+
     ("**📖 Description:**" +:+ nl +:+ strings_Join (alertDescription alert) nl)
   else if ended then
     nl +:+ "------" +:+ nl +:+
     ("**⏲️ Duration:** " +:+ Duration_String (Time_Sub endAt startAt)) +:+ nl +:+
     (": - **_Start:_** " +:+ Time_Format_DateTime startAt) +:+ nl +:+
     (": - **_End:_** " +:+ Time_Format_DateTime endAt)
   else "").
Proof.
  intros status startAt endAt ended. unfold Legacy.renderAlert.
  unfold Legacy.time_ParseInLocation_RFC3339_Local. fold startAt endAt.
  unfold status. destruct (alertStatus alert) as [st color]. cbn [fst snd Color Description].
  split; [reflexivity |].
  unfold Legacy.alertBody, Time_After. fold ended.
  destruct (negb (String.eqb st "normal")).
  - destruct ended; reflexivity.
  - destruct ended; cbn [app strings_Join]; [reflexivity |].
    rewrite append_empty_r. reflexivity.
Qed.

End LegacyRevision.

(** ** What serving a request leaves in the world *)

Section Footprint.
Context {R : GoRuntime} (P : Process).

Lemma postTargets_app (evs1 evs2 : list Event) :
  postTargets (evs1 ++ evs2) = postTargets evs1 ++ postTargets evs2.
Proof. unfold postTargets. apply omap_app. Qed.

Lemma postTargets_deliveryEvents (msg : discordOut) (r : PostResult) :
  postTargets (deliveryEvents P msg r) = [(whURL P, "application/json")].
Proof.
  unfold deliveryEvents.
  destruct (debug P), r as [err | code b]; simpl; try destruct (400 <=? code)%Z; reflexivity.
Qed.

Lemma delivered_appends (msgs : list discordOut) (w : World) :
  exists more : list Event,
    events (delivered P msgs w) = events w ++ more /\
    postTargets more = replicate (length msgs) (whURL P, "application/json").
Proof.
  revert w. induction msgs as [| msg msgs IH]; intros w.
  - exists []. split; [symmetry; apply app_nil_r | reflexivity].
  - cbn [delivered]. destruct (IH {| events := events w ++ deliveryEvents P msg (network w 0%nat);
                                      network := fun n => network w (S n) |})
      as (more & Hevents & Htargets).
    exists (deliveryEvents P msg (network w 0%nat) ++ more).
    split; [rewrite Hevents; cbn [events]; rewrite app_assoc; reflexivity |].
    rewrite postTargets_app, postTargets_deliveryEvents, Htargets. reflexivity.
Qed.

(** What the handler adds after it has logged the request and, in debug
    mode, echoed the body. *)
Lemma serveHTTP_appends (r : Request) (b : string) (w : World) :
  Body r = ReadOk b ->
  exists (more : list Event) (n : nat),
    events (snd (serveHTTP P r w)) = events (received P r b w) ++ more /\
    postTargets more = replicate n (whURL P, "application/json").
Proof.
  intros Hbody. unfold serveHTTP. rewrite (handler_decodes P r b w Hbody).
  destruct (json_Unmarshal b) as [amo |].
  - destruct (renderAlerts P (Alerts amo) []) as [units | msg] eqn:Hrender.
    + rewrite (sendWebhook_run P amo units _ Hrender). cbn [snd].
      destruct (delivered_appends (batches (header amo) units) (received P r b w))
        as (more & Hevents & Htargets).
      exists more, (length (batches (header amo) units)). split; assumption.
    + rewrite (sendWebhook_panics P amo msg _ Hrender). cbn [snd].
      exists [], 0%nat. split; [symmetry; apply app_nil_r | reflexivity].
  - destruct (isRawPromAlert b).
    + rewrite sendRawPromAlertWarn_run. cbn [snd events].
      eexists _, 1%nat. split; reflexivity.
    + destruct (Nat.ltb_spec 1024 (String.length b)) as [Hlong | Hshort].
      * unfold mbind, M_bind, lift, slice_to.
        destruct (Nat.leb_spec 1023 (String.length b)) as [_ | Hlt]; [| lia].
        unfold log_Print, emit. cbn [snd events].
        eexists _, 0%nat. split; reflexivity.
      * unfold log_Print, emit. cbn [snd events].
        eexists _, 0%nat. split; reflexivity.
Qed.

(** X26. Serving a request only adds to what has happened: the earlier
    events stay as they are, and the first event added is the log line of
    the request, host, method and URL, also when the handler panics
    later. *)
Theorem request_is_logged_first (r : Request) (w : World) :
  exists rest : list Event,
    events (snd (serveHTTP P r w)) =
    events w ++ EvLog (Host r +:+ " - [" +:+ Method r +:+ "] " +:+ URL r) :: rest.
Proof.
  destruct (Body r) as [b | err] eqn:Hbody.
  - destruct (serveHTTP_appends r b w Hbody) as (more & n & Hevents & _).
    rewrite Hevents. unfold received. cbn [events].
    eexists. rewrite <- !app_assoc. reflexivity.
  - unfold serveHTTP. rewrite (read_failure_aborts_run P r err w Hbody). cbn [snd events].
    exists []. reflexivity.
Qed.

(** X27. Every POST made while serving a request goes to the configured
    webhook URL with the content type application/json: nothing is ever
    sent anywhere else. *)
Theorem posts_go_to_the_webhook_only (r : Request) (w : World) :
  exists n : nat,
    postTargets (events (snd (serveHTTP P r w))) =
    postTargets (events w) ++ replicate n (whURL P, "application/json").
Proof.
  destruct (Body r) as [b | err] eqn:Hbody.
  - destruct (serveHTTP_appends r b w Hbody) as (more & n & Hevents & Htargets).
    exists n. rewrite Hevents, postTargets_app, Htargets. f_equal.
    unfold received. cbn [events]. rewrite !postTargets_app.
    destruct (debug P); cbn; rewrite app_nil_r; reflexivity.
  - exists 0%nat. unfold serveHTTP. rewrite (read_failure_aborts_run P r err w Hbody).
    cbn [snd events]. rewrite postTargets_app. reflexivity.
Qed.

(** X25. A name in [TZ] that contains two dots in a row or starts with a
    slash or a backslash, such as the path of a zone file, never resolves,
    whatever the time-zone database holds: every alert then fails to
    render, with the panic of [Time.In]. *)
Theorem path_like_zone_never_renders (alert : alertManAlert) :
  containsDotDot (os_Getenv P "TZ") || String.prefix "/" (os_Getenv P "TZ")
  || String.prefix "\" (os_Getenv P "TZ") = true ->
  fst (time_LoadLocation (os_Getenv P "TZ")) = None /\
  renderAlert P alert = Panic "time: missing Location in call to Time.In".
Proof.
  intros Hpath.
  assert (Hloc : fst (time_LoadLocation (os_Getenv P "TZ")) = None).
  { unfold time_LoadLocation.
    destruct (String.eqb_spec (os_Getenv P "TZ") "") as [Heq | _];
      [rewrite Heq in Hpath; discriminate Hpath |].
    destruct (String.eqb_spec (os_Getenv P "TZ") "UTC") as [Heq | _];
      [rewrite Heq in Hpath; discriminate Hpath |].
    destruct (String.eqb_spec (os_Getenv P "TZ") "Local") as [Heq | _];
      [rewrite Heq in Hpath; discriminate Hpath |].
    cbn [orb]. rewrite Hpath. reflexivity. }
  split; [exact Hloc | apply renderAlert_nil, Hloc].
Qed.

End Footprint.

Lemma path_like_zone_never_renders_witness :
  @renderAlert Sample.runtime Sample.processZoneFile Sample.resolved =
  Panic "time: missing Location in call to Time.In".
Proof.
  apply (@path_like_zone_never_renders Sample.runtime Sample.processZoneFile Sample.resolved).
  vm_compute. reflexivity.
Defined.

(** ** The further properties on the sample inputs *)

Lemma sendWebhook_logs_failures_witness :
  logged (events (snd (@sendWebhook Sample.runtime Sample.process
                         (Sample.group (replicate 25 Sample.firing)) Sample.offline))) =
  replicate 3 "Send discord error -: dial tcp: connection refused".
Proof.
  rewrite (@sendWebhook_logs_failures Sample.runtime Sample.process _ Sample.units25);
    vm_compute; reflexivity.
Defined.

Lemma sendWebhook_uses_one_answer_each_witness :
  network (snd (@sendWebhook Sample.runtime Sample.process
                  (Sample.group (replicate 25 Sample.firing)) Sample.counting)) 0%nat =
  Response 3 "".
Proof.
  destruct (@sendWebhook_uses_one_answer_each Sample.runtime Sample.process
              (Sample.group (replicate 25 Sample.firing)) Sample.units25 Sample.counting 0%nat)
    as [Hnet _]; [vm_compute; reflexivity |].
  rewrite Hnet. reflexivity.
Defined.

Lemma batches_are_full_but_the_last_witness :
  exists msg : discordOut,
    batches (header (Sample.group (replicate 25 Sample.firing))) Sample.units25 !! 2%nat = Some msg /\
    length (Embeds msg) = 5%nat.
Proof.
  destruct (@batches_are_full_but_the_last Sample.runtime Sample.process
              (Sample.group (replicate 25 Sample.firing)) Sample.units25 Sample.online)
    as (_ & _ & Hsizes); [vm_compute; reflexivity |].
  destruct (batches (header (Sample.group (replicate 25 Sample.firing))) Sample.units25 !! 2%nat)
    as [msg |] eqn:Hmsg; [| vm_compute in Hmsg; discriminate Hmsg].
  exists msg. split; [reflexivity |].
  destruct (Hsizes 2%nat msg Hmsg) as (_ & Hlast & _).
  rewrite Hlast; vm_compute; reflexivity.
Defined.

Lemma bulkSend_up_to_ten_witness :
  @bulkSend Sample.runtime Sample.process
    {| Content := "h"; Embeds := [] |} [Sample.firingUnit] 0 Sample.online =
  @fireMessageOut Sample.runtime Sample.process
    {| Content := "h"; Embeds := [Sample.firingUnit] |} Sample.online.
Proof.
  rewrite (@bulkSend_up_to_ten Sample.runtime Sample.process); [reflexivity |].
  vm_compute. lia.
Defined.

Lemma rendered_unit_shape_witness :
  Color Sample.firingUnit ∈ [ColorRed; ColorOrange; ColorGreen; ColorGrey; ColorBlue].
Proof.
  apply (@rendered_unit_shape Sample.runtime Sample.process Sample.firing Sample.firingUnit).
  vm_compute. reflexivity.
Defined.

Lemma sendWebhook_empty_group_witness :
  posted (events (snd (@sendWebhook Sample.runtime Sample.processZoneFile
                         (Sample.group []) Sample.online))) =
  [Fixture.marshal {| Content := "=== Alert: ops - DiskFull ==="; Embeds := [] |}].
Proof.
  destruct (@sendWebhook_empty_group Sample.runtime Sample.processZoneFile
              (Sample.group []) Sample.online) as [_ Hposted]; [reflexivity |].
  rewrite Hposted. reflexivity.
Defined.

Lemma foreign_shape_is_warned_witness :
  fst (@serveHTTP Sample.runtime Sample.process (Sample.request Sample.rawBody) Sample.offline) =
  Replied 200 "" /\
  length (logged (events (snd (@serveHTTP Sample.runtime Sample.process
                                 (Sample.request Sample.rawBody) Sample.offline)))) = 4%nat.
Proof.
  rewrite (@foreign_shape_is_warned Sample.runtime Sample.process _ Sample.rawBody);
    [split; reflexivity | reflexivity | vm_compute; reflexivity | vm_compute; reflexivity].
Defined.

Lemma read_failure_aborts_witness :
  fst (@serveHTTP Sample.runtime Sample.process Sample.brokenRequest Sample.online) = Aborted.
Proof.
  destruct (@read_failure_aborts Sample.runtime Sample.process Sample.brokenRequest
              "unexpected EOF" Sample.online) as (_ & Haborted & _); [reflexivity |].
  exact Haborted.
Defined.

Lemma quiet_without_debug_witness :
  stdout (events (snd (@serveHTTP Sample.runtime Sample.process
                         (Sample.request Sample.firingBody) Sample.online))) = [].
Proof.
  rewrite (@quiet_without_debug Sample.runtime Sample.process); reflexivity.
Defined.

Lemma debug_echoes_traffic_witness :
  stdout (events (snd (@serveHTTP Sample.runtime Sample.processDebug
                         (Sample.request Sample.firingBody) Sample.online))) =
  ["Receive webhook: " +:+ Sample.firingBody;
   "Send webhook: " +:+
   Fixture.marshal {| Content := "=== Alert: ops - DiskFull ===";
                      Embeds := [Sample.firingUnit] |}].
Proof.
  rewrite (@debug_echoes_traffic Sample.runtime Sample.processDebug _ Sample.firingBody
             (Sample.group [Sample.firing]) [Sample.firingUnit]);
    [reflexivity | reflexivity | reflexivity | vm_compute; reflexivity | vm_compute; reflexivity].
Defined.

Lemma unparseable_log_line_is_bounded_witness :
  exists line : string,
    logged (events (snd (@handler Sample.runtime Sample.process
                           (Sample.request Sample.garbage) Sample.online))) =
    ["127.0.0.1:9094 - [POST] /"; line] /\
    (String.length line <= 1067)%nat.
Proof.
  destruct (@unparseable_log_line_is_bounded Sample.runtime Sample.process
              (Sample.request Sample.garbage) Sample.garbage Sample.online)
    as (line & Hlog & _ & Hbound & _);
    [reflexivity | vm_compute; reflexivity | vm_compute; reflexivity |].
  exists line. split; [exact Hlog | exact Hbound].
Defined.

Lemma checkWhURL_accepts_webhook_urls_witness :
  checkWhURL Sample.hasControlByte Sample.webhook = Continue tt [].
Proof.
  destruct (checkWhURL_accepts_webhook_urls Sample.hasControlByte "discord" "."%char "t"%char
              "123456789012345678" "oken") as [_ Hpass];
    [left; reflexivity | reflexivity | discriminate | reflexivity | left; reflexivity
    | reflexivity |].
  apply Hpass. vm_compute. reflexivity.
Defined.

Lemma checkWhURL_pattern_is_unanchored_witness :
  webhookRE_Match ("http://example.org/?" +:+ Sample.webhook +:+ "#anything") = true.
Proof.
  apply checkWhURL_pattern_is_unanchored. vm_compute. reflexivity.
Defined.

Lemma legacy_renders_every_label_witness :
  @Legacy.alertLabels Sample.runtime Sample.quiet =
  [": - **_severity:_** normal"; ": - **_metrics_value:_** 17"; ": - **_instance:_** db1"].
Proof.
  destruct (@legacy_renders_every_label Sample.runtime
              ltac:(constructor; intros m; reflexivity) Sample.quiet) as (Hlines & _).
  rewrite Hlines. vm_compute. reflexivity.
Defined.
